(** * Workspace resolution: dagster/cli/workspace/load.py

  A shallow embedding of the resolver that turns a workspace document
  into repository location handles, and of the merge of several
  documents into one workspace.  Collaborators that live outside
  load.py (target loader, remote lister, pointer loader, yaml reader)
  are fields of a record; every call to one of them that matters for
  discovery is logged in a trace. *)

From Stdlib Require Import String Ascii List ZArith Bool Lia DecimalString.
Import ListNotations.
Local Open Scope string_scope.
Local Open Scope list_scope.

(** ** Python conventions *)

Module Py.

(** Truthiness of [str], of [Optional[str]] and of [Optional[int]]. *)
Definition truthy_str (s : string) : bool :=
  match s with EmptyString => false | String _ _ => true end.

Definition truthy (o : option string) : bool :=
  match o with Some s => truthy_str s | None => false end.

Definition truthy_int (o : option Z) : bool :=
  match o with Some n => negb (Z.eqb n 0) | None => false end.

(** The string behind an [Optional[str]] that passes [if x:]. *)
Definition nonempty (o : option string) : option string :=
  match o with
  | Some s => if truthy_str s then Some s else None
  | None => None
  end.

(** [str(n)] for an int. *)
Definition str_of_int (n : Z) : string :=
  NilZero.string_of_int (Z.to_int n).

(** [s.startswith(t)], [s.endswith('/')]. *)
Definition startswith_sep (s : string) : bool :=
  match s with String "/"%char _ => true | _ => false end.

Fixpoint endswith_sep (s : string) : bool :=
  match s with
  | EmptyString => false
  | String c EmptyString => Ascii.eqb c "/"%char
  | String _ rest => endswith_sep rest
  end.

(** A [dict] with string keys: insertion ordered, assignment to a key
    already present replaces the value in place. *)
Section Dict.
Context {V : Type}.

Definition dict := list (string * V).

Fixpoint get (d : dict) (k : string) : option V :=
  match d with
  | [] => None
  | (k', v) :: rest => if String.eqb k' k then Some v else get rest k
  end.

Fixpoint set (d : dict) (k : string) (v : V) : dict :=
  match d with
  | [] => [(k, v)]
  | (k', v') :: rest =>
      if String.eqb k' k then (k', v) :: rest else (k', v') :: set rest k v
  end.

Definition keys (d : dict) : list string := map fst d.
Definition values (d : dict) : list V := map snd d.
Definition len (d : dict) : nat := length d.
Definition contains (d : dict) (k : string) : bool :=
  match get d k with Some _ => true | None => false end.
End Dict.
Arguments dict V : clear implicits.

End Py.

(** ** posixpath *)

Module PosixPath.

(** [p[:p.rfind('/') + 1]]: the part of [p] up to and including its
    last separator. *)
Fixpoint head_of (p : string) : string :=
  match p with
  | EmptyString => EmptyString
  | String c rest =>
      let h := head_of rest in
      match h with
      | EmptyString =>
          if Ascii.eqb c "/"%char then String c EmptyString else EmptyString
      | _ => String c h
      end
  end.

Fixpoint all_sep (p : string) : bool :=
  match p with
  | EmptyString => true
  | String c rest => Ascii.eqb c "/"%char && all_sep rest
  end.

(** [s.rstrip('/')] *)
Fixpoint rstrip_sep (p : string) : string :=
  match p with
  | EmptyString => EmptyString
  | String c rest =>
      match rstrip_sep rest with
      | EmptyString =>
          if Ascii.eqb c "/"%char then EmptyString else String c EmptyString
      | r => String c r
      end
  end.

Definition dirname (p : string) : string :=
  let head := head_of p in
  if Py.truthy_str head && negb (all_sep head) then rstrip_sep head else head.

(** [os.path.join(a, b)] *)
Definition join (a b : string) : string :=
  if Py.startswith_sep b then b
  else if negb (Py.truthy_str a) || Py.endswith_sep a then (a ++ b)%string
  else (a ++ "/" ++ b)%string.

Definition isabs (p : string) : bool := Py.startswith_sep p.

End PosixPath.

(** ** Data model *)

(** [RepositoryLocationApi] *)
Inductive RepositoryLocationApi := CLI | GRPC.

(** [CodePointer.from_python_file], [from_module], [from_python_package];
    a legacy pointer is whatever [from_legacy_repository_yaml] returns. *)
Inductive CodePointer :=
| from_python_file (python_file attribute : string)
                   (working_directory : option string)
| from_module (module_name attribute : string)
| from_python_package (package_name attribute : string).

(** The loaded definition; the resolver only reads its [name]. *)
Module RepositoryDefinition.
Record t := make { name : string }.
End RepositoryDefinition.

(** [LoadableTarget(attribute, target_definition)] of autodiscovery. *)
Module LoadableTarget.
Record t := make { attribute : string; target_definition : RepositoryDefinition.t }.
End LoadableTarget.

(** One entry of [response.repository_symbols] of the remote lister. *)
Module LoadableRepositorySymbol.
Record t := make { repository_name : string; attribute : string }.
End LoadableRepositorySymbol.

Module ListRepositoriesResponse.
Record t := make { repository_symbols : list LoadableRepositorySymbol.t }.
End ListRepositoriesResponse.

(** Keyword arguments of [sync_list_repositories] and of
    [sync_list_repositories_ephemeral_grpc]. *)
Module ListRepositoriesArgs.
Record t := make {
  executable_path : string;
  python_file : option string;
  module_name : option string;
  working_directory : option string }.
End ListRepositoriesArgs.

(** *** Workspace documents *)

Inductive python_file_config :=
| FileStr (shorthand : string)
| FileDict (relative_path : string)
           (attribute location_name working_directory : option string).

Inductive python_module_config :=
| ModuleStr (shorthand : string)
| ModuleDict (module_name : string) (attribute location_name : option string).

Inductive python_package_config :=
| PackageStr (shorthand : string)
| PackageDict (package_name : string) (attribute location_name : option string).

(** A target dict: each key may be absent. *)
Record target_config := {
  python_file : option python_file_config;
  python_module : option python_module_config;
  python_package : option python_package_config }.

Record grpc_server_config := {
  port : option Z;
  socket : option string;
  host : option string;
  grpc_location_name : option string (* key 'location_name' *) }.

Record python_environment_config := {
  executable_path : string;
  target : target_config }.

(** A [load_from] entry: one dict; the three target keys are read
    through [target_keys]. *)
Record location_config := {
  target_keys : target_config;
  grpc_server : option grpc_server_config;
  python_environment : option python_environment_config }.

Record workspace_config := {
  repository : bool (* 'repository' in workspace_config *);
  opt_in : option (list string);
  load_from : option (list location_config) }.

(** *** Handles and workspaces *)

Inductive Strategy :=
| InProcess | OutOfProcessCLI | RPC | PythonEnvironment | GrpcServer.

Inductive Payload :=
| Repositories (repository_code_pointer_dict : Py.dict CodePointer)
| EnvRepositories (executable_path : string)
                  (repository_code_pointer_dict : Py.dict CodePointer)
| Endpoint (host : string) (port : option Z) (socket : option string).

Record RepositoryLocationHandle := {
  location_name : string;
  strategy : Strategy;
  payload : Payload }.

(** The mapping repository name -> pointer a handle carries, if any. *)
Definition repository_code_pointer_dict (h : RepositoryLocationHandle)
  : Py.dict CodePointer :=
  match payload h with
  | Repositories d | EnvRepositories _ d => d
  | Endpoint _ _ _ => []
  end.

(** ** Errors, traces and the resolver monad *)

Inductive error :=
| CheckError (description : string)
| DagsterInvariantViolationError (message : string)
| StopIteration
| KeyError (key : string)
| UnknownLocationError (location_name : string)
| External (message : string).

Inductive result (A : Type) :=
| Ok (a : A)
| Raise (e : error).
Arguments Ok {A} a.
Arguments Raise {A} e.

(** A call that leaves the resolver. *)
Inductive Call :=
| LoadableTargetsFromPythonFile (python_file : string)
                                (working_directory : option string)
| LoadableTargetsFromPythonModule (module_name : string)
| LoadableTargetsFromPythonPackage (package_name : string)
| DefFromPointer (pointer : CodePointer)
| SyncListRepositories (args : ListRepositoriesArgs.t)
| SyncListRepositoriesEphemeralGrpc (args : ListRepositoriesArgs.t).

(** Enumeration of the repositories of a site, as opposed to loading
    one named attribute. *)
Definition local_enumeration (c : Call) : bool :=
  match c with
  | LoadableTargetsFromPythonFile _ _
  | LoadableTargetsFromPythonModule _
  | LoadableTargetsFromPythonPackage _ => true
  | _ => false
  end.

Definition remote_enumeration (c : Call) : bool :=
  match c with
  | SyncListRepositories _ | SyncListRepositoriesEphemeralGrpc _ => true
  | _ => false
  end.

Definition discovery (c : Call) : bool :=
  local_enumeration c || remote_enumeration c.

Definition M (A : Type) : Type := (list Call * result A)%type.

Definition ret {A} (a : A) : M A := ([], Ok a).

Definition lift {A} (r : result A) : M A := ([], r).

Definition call {A} (c : Call) (r : result A) : M A := ([c], r).

Definition bind {A B} (m : M A) (f : A -> M B) : M B :=
  match m with
  | (t, Ok a) => let (t', r) := f a in (t ++ t', r)
  | (t, Raise e) => (t, Raise e)
  end.

Definition trace {A} (m : M A) : list Call := fst m.
Definition outcome {A} (m : M A) : result A := snd m.

Notation "x <- m ;; k" := (bind m (fun x => k))
  (at level 61, m at next level, right associativity).
Notation "' pat <- m ;; k" := (bind m (fun x => match x with pat => k end))
  (at level 61, pat pattern, m at next level, right associativity).

(** [for x in xs: acc = f(acc, x)] where the body may raise. *)
Fixpoint for_each {A B} (f : A -> B -> M A) (acc : A) (xs : list B) : M A :=
  match xs with
  | [] => ret acc
  | x :: rest => acc' <- f acc x ;; for_each f acc' rest
  end.

(** [[f(x) for x in xs]] *)
Fixpoint comprehension {A B} (f : A -> M B) (xs : list A) : M (list B) :=
  match xs with
  | [] => ret []
  | x :: rest => y <- f x ;; ys <- comprehension f rest ;; ret (y :: ys)
  end.

(** ** Parts of the repository outside load.py *)

(** Modelled from the spec: [rebase_file] (dagster.core.code_pointer) is
    not in load.py.  Section 4.1: a relative path is resolved relative
    to the directory containing the workspace document being processed;
    absolute paths pass through unchanged. *)
Definition rebase_file (relative_path_in_file file_path_resides_in : string)
  : string :=
  if PosixPath.isabs relative_path_in_file then relative_path_in_file
  else PosixPath.join (PosixPath.dirname file_path_resides_in)
                      relative_path_in_file.

(** load.py, lines 175-184. *)
Definition assign_location_name (location_name : option string)
    (repository_code_pointer_dict : Py.dict CodePointer) : result string :=
  match Py.nonempty location_name with
  | Some location_name => Ok location_name
  | None =>
      if Nat.ltb 1 (Py.len repository_code_pointer_dict) then
        Raise (DagsterInvariantViolationError
          "If there is one than more repository you must provide a location name")
      else
        match Py.keys repository_code_pointer_dict with
        | k :: _ => Ok k
        | [] => Raise StopIteration
        end
  end.

(** Modelled from the spec: [RepositoryLocationHandle.create_out_of_process_location]
    is not in load.py.  Section 4.3: built from a bare TargetConfig, the
    strategy tag depends on the Api flag.  [api] is a keyword argument;
    [None] is a call that leaves it out, and the plain out-of-process
    (CLI) strategy applies. *)
Definition create_out_of_process_location
    (repository_code_pointer_dict : Py.dict CodePointer)
    (location_name : string) (api : option RepositoryLocationApi)
  : RepositoryLocationHandle :=
  {| location_name := location_name;
     strategy := match api with
                 | Some GRPC => RPC
                 | Some CLI | None => OutOfProcessCLI
                 end;
     payload := Repositories repository_code_pointer_dict |}.

(** Modelled from the spec: [RepositoryLocationHandle.create_python_env_location]
    is not in load.py, which hands it the location name as configured,
    possibly [None].  Section 4.3: every sub-builder resolves the
    location name by the Naming Resolver (section 4.4) before it emits
    the handle; the PythonEnvironment handle carries the executable
    path. *)
Definition create_python_env_location (executable_path : string)
    (location_name : option string)
    (repository_code_pointer_dict : Py.dict CodePointer)
    (api : RepositoryLocationApi) : result RepositoryLocationHandle :=
  match assign_location_name location_name repository_code_pointer_dict with
  | Ok name =>
      Ok {| location_name := name;
            strategy := PythonEnvironment;
            payload := EnvRepositories executable_path
                                       repository_code_pointer_dict |}
  | Raise e => Raise e
  end.

(** Modelled from the spec: [RepositoryLocationHandle.create_grpc_server_location]
    is not in load.py.  Section 3: the GrpcServer payload is
    {host, port|socket}; no repository mapping is known. *)
Definition create_grpc_server_location (port : option Z)
    (socket : option string) (host location_name : string)
  : RepositoryLocationHandle :=
  {| location_name := location_name;
     strategy := GrpcServer;
     payload := Endpoint host port socket |}.

(** Modelled from the spec: class [Workspace] (workspace.py) is not in
    load.py.  Section 3: a mapping location_name -> handle; section 4.5:
    it exposes the location names and [getHandle], which fails with
    UnknownLocationError on an absent name. *)
Module Workspace.
Record t := make { location_handle_dict : Py.dict RepositoryLocationHandle }.

Definition create (repository_location_handles : list RepositoryLocationHandle)
  : t :=
  make (fold_left (fun d rlh => Py.set d (location_name rlh) rlh)
                  repository_location_handles []).

Definition repository_location_names (w : t) : list string :=
  Py.keys (location_handle_dict w).

Definition get_repository_location_handle (w : t) (name : string)
  : result RepositoryLocationHandle :=
  match Py.get (location_handle_dict w) name with
  | Some h => Ok h
  | None => Raise (UnknownLocationError name)
  end.
End Workspace.

(** The collaborators the resolver calls: what each answers. *)
Record Collaborators := {
  c_loadable_targets_from_python_file :
    string -> option string -> result (list LoadableTarget.t);
  c_loadable_targets_from_python_module :
    string -> result (list LoadableTarget.t);
  c_loadable_targets_from_python_package :
    string -> result (list LoadableTarget.t);
  c_def_from_pointer : CodePointer -> result RepositoryDefinition.t;
  c_sync_list_repositories :
    ListRepositoriesArgs.t -> result ListRepositoriesResponse.t;
  c_sync_list_repositories_ephemeral_grpc :
    ListRepositoriesArgs.t -> result ListRepositoriesResponse.t;
  c_expanduser : string -> string;
  c_from_legacy_repository_yaml : string -> result CodePointer;
  c_load_yaml_from_path : string -> result workspace_config;
  c_ensure_workspace_config : workspace_config -> string -> result unit }.

(** ** The resolver (load.py) *)

Section Resolver.
Context (env : Collaborators).

Definition def_from_pointer (pointer : CodePointer)
  : M RepositoryDefinition.t :=
  call (DefFromPointer pointer) (c_def_from_pointer env pointer).

Definition loadable_targets_from_python_file (python_file : string)
    (working_directory : option string) : M (list LoadableTarget.t) :=
  call (LoadableTargetsFromPythonFile python_file working_directory)
       (c_loadable_targets_from_python_file env python_file working_directory).

Definition loadable_targets_from_python_module (module_name : string)
  : M (list LoadableTarget.t) :=
  call (LoadableTargetsFromPythonModule module_name)
       (c_loadable_targets_from_python_module env module_name).

Definition loadable_targets_from_python_package (package_name : string)
  : M (list LoadableTarget.t) :=
  call (LoadableTargetsFromPythonPackage package_name)
       (c_loadable_targets_from_python_package env package_name).

Definition sync_list_repositories (args : ListRepositoriesArgs.t)
  : M ListRepositoriesResponse.t :=
  call (SyncListRepositories args) (c_sync_list_repositories env args).

Definition sync_list_repositories_ephemeral_grpc (args : ListRepositoriesArgs.t)
  : M ListRepositoriesResponse.t :=
  call (SyncListRepositoriesEphemeralGrpc args)
       (c_sync_list_repositories_ephemeral_grpc env args).

(** Modelled from the spec: [RepositoryLocationHandle.create_in_process_location]
    is not in load.py.  Section 4.3: a single-entry handle built directly
    from the legacy pointer, no discovery step; section 3: the key is the
    name the loaded repository reports. *)
Definition create_in_process_location (pointer : CodePointer)
  : M RepositoryLocationHandle :=
  repo_def <- def_from_pointer pointer ;;
  ret {| location_name := RepositoryDefinition.name repo_def;
         strategy := InProcess;
         payload := Repositories [(RepositoryDefinition.name repo_def, pointer)] |}.

(** Lines 76-85. *)
Definition load_def_in_module (module_name attribute : string) :=
  def_from_pointer (from_module module_name attribute).

Definition load_def_in_package (package_name attribute : string) :=
  def_from_pointer (from_python_package package_name attribute).

Definition load_def_in_python_file (python_file attribute : string)
    (working_directory : option string) :=
  def_from_pointer (from_python_file python_file attribute working_directory).

(** [repository_code_pointer_dict[target.target_definition.name] = pointer(target.attribute)]
    for each loadable target, lines 118-122, 162-166, 234-238. *)
Definition pointers_by_repository_name (pointer : string -> CodePointer)
    (loadable_targets : list LoadableTarget.t) : Py.dict CodePointer :=
  fold_left
    (fun d loadable_target =>
       Py.set d
         (RepositoryDefinition.name
            (LoadableTarget.target_definition loadable_target))
         (pointer (LoadableTarget.attribute loadable_target)))
    loadable_targets [].

(** [{lrs.attribute: pointer(lrs.attribute) for lrs in response.repository_symbols}],
    lines 341-346, 376-379, 407-410. *)
Definition pointers_by_attribute (pointer : string -> CodePointer)
    (repository_symbols : list LoadableRepositorySymbol.t)
  : Py.dict CodePointer :=
  fold_left
    (fun d lrs =>
       Py.set d (LoadableRepositorySymbol.attribute lrs)
                (pointer (LoadableRepositorySymbol.attribute lrs)))
    repository_symbols [].

(** Lines 94-103. *)
Definition _get_module_config_data (python_module_config : python_module_config)
  : string * option string * option string :=
  match python_module_config with
  | ModuleStr s => (s, None, None)
  | ModuleDict module_name attribute location_name =>
      (module_name, attribute, location_name)
  end.

(** Lines 106-129. *)
Definition location_handle_from_module_name (module_name : string)
    (attribute : option string) (api : RepositoryLocationApi)
    (location_name : option string) : M RepositoryLocationHandle :=
  loadable_targets <-
    match Py.nonempty attribute with
    | Some attribute =>
        target_definition <- load_def_in_module module_name attribute ;;
        ret [LoadableTarget.make attribute target_definition]
    | None => loadable_targets_from_python_module module_name
    end ;;
  let repository_code_pointer_dict :=
    pointers_by_repository_name (from_module module_name) loadable_targets in
  location_name <-
    lift (assign_location_name location_name repository_code_pointer_dict) ;;
  ret (create_out_of_process_location repository_code_pointer_dict
         location_name (Some api)).

(** Lines 88-91. *)
Definition _location_handle_from_module_config
    (python_module_config : python_module_config)
    (api : RepositoryLocationApi) : M RepositoryLocationHandle :=
  let '(module_name, attribute, location_name) :=
    _get_module_config_data python_module_config in
  location_handle_from_module_name module_name attribute api location_name.

(** Lines 138-147. *)
Definition _get_package_config_data
    (python_package_config : python_package_config)
  : string * option string * option string :=
  match python_package_config with
  | PackageStr s => (s, None, None)
  | PackageDict package_name attribute location_name =>
      (package_name, attribute, location_name)
  end.

(** Lines 150-172.  The call of [create_out_of_process_location] at
    lines 168-172 has no [api] argument. *)
Definition location_handle_from_package_name (package_name : string)
    (attribute : option string) (api : RepositoryLocationApi)
    (location_name : option string) : M RepositoryLocationHandle :=
  loadable_targets <-
    match Py.nonempty attribute with
    | Some attribute =>
        target_definition <- load_def_in_package package_name attribute ;;
        ret [LoadableTarget.make attribute target_definition]
    | None => loadable_targets_from_python_package package_name
    end ;;
  let repository_code_pointer_dict :=
    pointers_by_repository_name (from_python_package package_name)
                                loadable_targets in
  location_name <-
    lift (assign_location_name location_name repository_code_pointer_dict) ;;
  ret (create_out_of_process_location repository_code_pointer_dict
         location_name None).

(** Lines 132-135. *)
Definition _location_handle_from_package_config
    (python_module_config : python_package_config)
    (api : RepositoryLocationApi) : M RepositoryLocationHandle :=
  let '(module_name, attribute, location_name) :=
    _get_package_config_data python_module_config in
  location_handle_from_package_name module_name attribute api location_name.

(** Lines 200-212. *)
Definition _get_python_file_config_data
    (python_file_config : python_file_config) (yaml_path : string)
  : string * option string * option string * option string :=
  match python_file_config with
  | FileStr s => (rebase_file s yaml_path, None, None, None)
  | FileDict relative_path attribute location_name working_directory =>
      (rebase_file relative_path yaml_path,
       attribute,
       location_name,
       match Py.nonempty working_directory with
       | Some working_directory => Some (rebase_file working_directory yaml_path)
       | None => None
       end)
  end.

(** Lines 215-245. *)
Definition location_handle_from_python_file (python_file : string)
    (attribute : option string) (api : RepositoryLocationApi)
    (location_name working_directory : option string)
  : M RepositoryLocationHandle :=
  loadable_targets <-
    match Py.nonempty attribute with
    | Some attribute =>
        target_definition <-
          load_def_in_python_file python_file attribute working_directory ;;
        ret [LoadableTarget.make attribute target_definition]
    | None => loadable_targets_from_python_file python_file working_directory
    end ;;
  let repository_code_pointer_dict :=
    pointers_by_repository_name
      (fun attribute => from_python_file python_file attribute working_directory)
      loadable_targets in
  location_name <-
    lift (assign_location_name location_name repository_code_pointer_dict) ;;
  ret (create_out_of_process_location repository_code_pointer_dict
         location_name (Some api)).

(** Lines 187-197. *)
Definition location_handle_from_python_file_config
    (python_file_config : python_file_config) (yaml_path : string)
    (api : RepositoryLocationApi) : M RepositoryLocationHandle :=
  let '(absolute_path, attribute, location_name, working_directory) :=
    _get_python_file_config_data python_file_config yaml_path in
  location_handle_from_python_file absolute_path attribute api location_name
                                   working_directory.

(** Lines 248-268. *)
Definition _list_repositories (executable_path : string)
    (python_file module_name working_directory : option string)
    (api : RepositoryLocationApi) : M ListRepositoriesResponse.t :=
  let args := ListRepositoriesArgs.make executable_path python_file
                module_name working_directory in
  match api with
  | GRPC => sync_list_repositories_ephemeral_grpc args
  | CLI => sync_list_repositories args
  end.

(** Lines 271-278.  [{socket_or_port}] formats a str as it is and an
    int in decimal. *)
Definition _assign_grpc_location_name (port : option Z)
    (socket : option string) (host : string) : result string :=
  if negb (Py.truthy_int port || Py.truthy socket) then
    Raise (CheckError "Invariant failed.")
  else
    let socket_or_port :=
      match Py.nonempty socket with
      | Some socket => socket
      | None => match port with
                | Some port => Py.str_of_int port
                | None => "None"
                end
      end in
    Ok ("grpc:" ++ host ++ ":" ++ socket_or_port)%string.

(** Lines 281-304. *)
Definition _location_handle_from_grpc_server_config
    (grpc_server_config : grpc_server_config) (yaml_path : string)
  : result RepositoryLocationHandle :=
  let '(port, socket, host, location_name) :=
    (port grpc_server_config, socket grpc_server_config,
     host grpc_server_config, grpc_location_name grpc_server_config) in
  if negb ((Py.truthy socket || Py.truthy_int port)
           && negb (Py.truthy socket && Py.truthy_int port)) then
    Raise (CheckError "must supply either a socket or a port")
  else
    let host := match Py.nonempty host with
                | Some host => host
                | None => "localhost"
                end in
    match
      match Py.nonempty location_name with
      | Some location_name => Ok location_name
      | None => _assign_grpc_location_name port socket host
      end
    with
    | Ok location_name =>
        Ok (create_grpc_server_location port socket host location_name)
    | Raise e => Raise e
    end.

(** Truthiness of [target_config.get('python_file')] and its siblings:
    a shorthand string is truthy when not empty, a dict of the schema
    always (it has its required key). *)
Definition truthy_file (c : option python_file_config) : bool :=
  match c with
  | Some (FileStr s) => Py.truthy_str s
  | Some (FileDict _ _ _ _) => true
  | None => false
  end.

Definition truthy_module (c : option python_module_config) : bool :=
  match c with
  | Some (ModuleStr s) => Py.truthy_str s
  | Some (ModuleDict _ _ _) => true
  | None => false
  end.

Definition truthy_package (c : option python_package_config) : bool :=
  match c with
  | Some (PackageStr s) => Py.truthy_str s
  | Some (PackageDict _ _ _) => true
  | None => false
  end.

(** Lines 446-451. *)
Definition is_target_config (potential_target_config : target_config) : bool :=
  truthy_file (python_file potential_target_config)
  || truthy_module (python_module potential_target_config)
  || truthy_package (python_package potential_target_config).

(** Lines 307-421. *)
Definition _location_handle_from_python_environment_config
    (python_environment_config : python_environment_config)
    (yaml_path : string) (api : RepositoryLocationApi)
  : M RepositoryLocationHandle :=
  let '(executable_path, target_config) :=
    (c_expanduser env (executable_path python_environment_config),
     target python_environment_config) in
  if negb (is_target_config target_config) then
    lift (Raise (CheckError "Invariant failed."))
  else
  let '(python_file_config, python_module_config, python_package_config) :=
    (python_file target_config, python_module target_config,
     python_package target_config) in
  match python_file_config, truthy_file python_file_config with
  | Some python_file_config, true =>
      let '(absolute_path, attribute, location_name, working_directory) :=
        _get_python_file_config_data python_file_config yaml_path in
      match Py.nonempty attribute with
      | None =>
          response <- _list_repositories executable_path (Some absolute_path)
                        None None api ;;
          lift (create_python_env_location executable_path location_name
                  (pointers_by_attribute
                     (fun attribute =>
                        from_python_file absolute_path attribute
                                         working_directory)
                     (ListRepositoriesResponse.repository_symbols response))
                  api)
      | Some attribute =>
          lift (create_python_env_location executable_path location_name
                  [(attribute,
                    from_python_file absolute_path attribute working_directory)]
                  api)
      end
  | _, _ =>
  match python_module_config, truthy_module python_module_config with
  | Some python_module_config, true =>
      let '(module_name, attribute, location_name) :=
        _get_module_config_data python_module_config in
      match Py.nonempty attribute with
      | None =>
          response <- _list_repositories executable_path None
                        (Some module_name) None api ;;
          lift (create_python_env_location executable_path location_name
                  (pointers_by_attribute (from_module module_name)
                     (ListRepositoriesResponse.repository_symbols response))
                  api)
      | Some attribute =>
          lift (create_python_env_location executable_path location_name
                  [(attribute, from_module module_name attribute)] api)
      end
  | _, _ =>
  match python_package_config, truthy_package python_package_config with
  | Some python_package_config, true =>
      let '(package_name, attribute, location_name) :=
        _get_package_config_data python_package_config in
      match Py.nonempty attribute with
      | None =>
          response <- _list_repositories executable_path None
                        (Some package_name) None api ;;
          lift (create_python_env_location executable_path location_name
                  (pointers_by_attribute (from_python_package package_name)
                     (ListRepositoriesResponse.repository_symbols response))
                  api)
      | Some attribute =>
          lift (create_python_env_location executable_path location_name
                  [(attribute, from_python_package package_name attribute)]
                  api)
      end
  | _, _ => lift (Raise (CheckError "Invariant failed."))
  end end end.

(** Lines 454-470. *)
Definition _location_handle_from_target_config (target_config : target_config)
    (yaml_path : string) (api : RepositoryLocationApi)
  : M RepositoryLocationHandle :=
  if negb (is_target_config target_config) then
    lift (Raise (CheckError "Param target_config invariant violated"))
  else
    match python_file target_config with
    | Some python_file_config =>
        location_handle_from_python_file_config python_file_config yaml_path api
    | None =>
    match python_module target_config with
    | Some python_module_config =>
        _location_handle_from_module_config python_module_config api
    | None =>
    match python_package target_config with
    | Some python_package_config =>
        _location_handle_from_package_config python_package_config api
    | None => lift (Raise (CheckError "invalid target_config"))
    end end end.

(** ['grpc' in opt_ins] *)
Definition grpc_opted_in (opt_ins : list string) : bool :=
  existsb (String.eqb "grpc") opt_ins.

(** The [api] of line 429. *)
Definition api_of_opt_ins (opt_ins : list string) : RepositoryLocationApi :=
  if grpc_opted_in opt_ins then GRPC else CLI.

(** Lines 424-443. *)
Definition _location_handle_from_location_config
    (location_config : location_config) (yaml_path : string)
    (opt_ins : list string) : M RepositoryLocationHandle :=
  let api := api_of_opt_ins opt_ins in
  if is_target_config (target_keys location_config) then
    _location_handle_from_target_config (target_keys location_config)
                                        yaml_path api
  else
    match grpc_server location_config with
    | Some grpc_server_config =>
        lift (_location_handle_from_grpc_server_config grpc_server_config
                                                       yaml_path)
    | None =>
    match python_environment location_config with
    | Some python_environment_config =>
        _location_handle_from_python_environment_config
          python_environment_config yaml_path api
    | None => lift (Raise (CheckError "Unsupported location config"))
    end end.

(** Lines 48-73. *)
Definition load_workspace_from_config (workspace_config : workspace_config)
    (yaml_path : string) : M Workspace.t :=
  _ <- lift (c_ensure_workspace_config env workspace_config yaml_path) ;;
  if repository workspace_config then
    pointer <- lift (c_from_legacy_repository_yaml env yaml_path) ;;
    handle <- create_in_process_location pointer ;;
    ret (Workspace.create [handle])
  else
    let opt_ins := match opt_in workspace_config with
                   | Some flags => flags
                   | None => []
                   end in
    match load_from workspace_config with
    | None => lift (Raise (KeyError "load_from"))
    | Some entries =>
        location_handles <-
          comprehension
            (fun location_config =>
               _location_handle_from_location_config location_config yaml_path
                                                     opt_ins)
            entries ;;
        ret (Workspace.create location_handles)
    end.

(** Lines 36-41: every handle of every workspace, in order, assigned
    under its location name. *)
Definition merge_location_handles (workspaces : list Workspace.t)
  : M (Py.dict RepositoryLocationHandle) :=
  for_each
    (fun d workspace =>
       for_each
         (fun d repository_location_name =>
            handle <- lift (Workspace.get_repository_location_handle
                              workspace repository_location_name) ;;
            ret (Py.set d repository_location_name handle))
         d (Workspace.repository_location_names workspace))
    [] workspaces.

(** Lines 27-45. *)
Definition load_workspace_from_yaml_paths (yaml_paths : list string)
  : M Workspace.t :=
  workspace_configs <-
    comprehension (fun yaml_path => lift (c_load_yaml_from_path env yaml_path))
                  yaml_paths ;;
  workspaces <-
    comprehension
      (fun '(workspace_config, yaml_path) =>
         load_workspace_from_config workspace_config yaml_path)
      (combine workspace_configs yaml_paths) ;;
  repository_location_handles_dict <- merge_location_handles workspaces ;;
  ret (Workspace.create (Py.values repository_location_handles_dict)).

End Resolver.

(** ** Views used to state the properties *)

(** The three kinds of target an entry can name. *)
Inductive Target :=
| PythonFile (c : python_file_config)
| PythonModule (c : python_module_config)
| PythonPackage (c : python_package_config).

(** The dict {python_file: c}, {python_module: c} or {python_package: c}. *)
Definition target_dict (t : Target) : target_config :=
  match t with
  | PythonFile c =>
      {| python_file := Some c; python_module := None; python_package := None |}
  | PythonModule c =>
      {| python_file := None; python_module := Some c; python_package := None |}
  | PythonPackage c =>
      {| python_file := None; python_module := None; python_package := Some c |}
  end.

Definition no_target : target_config :=
  {| python_file := None; python_module := None; python_package := None |}.

(** A bare target entry of [load_from]. *)
Definition bare_entry (t : Target) : location_config :=
  {| target_keys := target_dict t;
     grpc_server := None;
     python_environment := None |}.

(** The entry {python_environment: {executable_path, target}}. *)
Definition python_environment_entry (exe : string) (t : Target)
  : location_config :=
  {| target_keys := no_target;
     grpc_server := None;
     python_environment :=
       Some {| executable_path := exe; target := target_dict t |} |}.

(** The entry {grpc_server: cfg}. *)
Definition grpc_server_entry (cfg : grpc_server_config) : location_config :=
  {| target_keys := no_target;
     grpc_server := Some cfg;
     python_environment := None |}.

Definition target_attribute (t : Target) : option string :=
  match t with
  | PythonFile (FileDict _ a _ _)
  | PythonModule (ModuleDict _ a _)
  | PythonPackage (PackageDict _ a _) => a
  | _ => None
  end.

Definition target_location_name (t : Target) : option string :=
  match t with
  | PythonFile (FileDict _ _ l _)
  | PythonModule (ModuleDict _ _ l)
  | PythonPackage (PackageDict _ _ l) => l
  | _ => None
  end.

(** The working directory as configured, before rebasing. *)
Definition target_working_directory (t : Target) : option string :=
  match t with
  | PythonFile (FileDict _ _ _ w) => w
  | _ => None
  end.

(** The pointer to attribute [a] of the target, for a document at
    [yaml_path]. *)
Definition target_pointer (t : Target) (yaml_path a : string) : CodePointer :=
  match t with
  | PythonFile (FileStr s) => from_python_file (rebase_file s yaml_path) a None
  | PythonFile (FileDict p _ _ w) =>
      from_python_file (rebase_file p yaml_path) a
        (match Py.nonempty w with
         | Some w => Some (rebase_file w yaml_path)
         | None => None
         end)
  | PythonModule (ModuleStr m) | PythonModule (ModuleDict m _ _) =>
      from_module m a
  | PythonPackage (PackageStr p) | PythonPackage (PackageDict p _ _) =>
      from_python_package p a
  end.

(** The in-process enumeration of the target: the call and the answer
    of the target loader. *)
Definition local_call (t : Target) (yaml_path : string) : Call :=
  match target_pointer t yaml_path "" with
  | from_python_file f _ w => LoadableTargetsFromPythonFile f w
  | from_module m _ => LoadableTargetsFromPythonModule m
  | from_python_package p _ => LoadableTargetsFromPythonPackage p
  end.

Definition local_answer (env : Collaborators) (t : Target) (yaml_path : string)
  : result (list LoadableTarget.t) :=
  match target_pointer t yaml_path "" with
  | from_python_file f _ w => c_loadable_targets_from_python_file env f w
  | from_module m _ => c_loadable_targets_from_python_module env m
  | from_python_package p _ => c_loadable_targets_from_python_package env p
  end.

(** What the remote lister is asked about the target: the file, or the
    module or package name, and no working directory. *)
Definition remote_args (exe : string) (t : Target) (yaml_path : string)
  : ListRepositoriesArgs.t :=
  match target_pointer t yaml_path "" with
  | from_python_file f _ _ => ListRepositoriesArgs.make exe (Some f) None None
  | from_module m _ | from_python_package m _ =>
      ListRepositoriesArgs.make exe None (Some m) None
  end.

Definition remote_call (api : RepositoryLocationApi)
    (args : ListRepositoriesArgs.t) : Call :=
  match api with
  | GRPC => SyncListRepositoriesEphemeralGrpc args
  | CLI => SyncListRepositories args
  end.

Definition remote_answer (env : Collaborators) (api : RepositoryLocationApi)
    (args : ListRepositoriesArgs.t) : result ListRepositoriesResponse.t :=
  match api with
  | GRPC => c_sync_list_repositories_ephemeral_grpc env args
  | CLI => c_sync_list_repositories env args
  end.

(** The targets a bare entry loads in process: the one named by an
    explicit attribute, or all that the target loader enumerates. *)
Definition loaded_targets (env : Collaborators) (t : Target)
    (yaml_path : string) : result (list LoadableTarget.t) :=
  match Py.nonempty (target_attribute t) with
  | Some a =>
      match c_def_from_pointer env (target_pointer t yaml_path a) with
      | Ok d => Ok [LoadableTarget.make a d]
      | Raise e => Raise e
      end
  | None => local_answer env t yaml_path
  end.

(** The [api] argument each bare builder hands to
    [create_out_of_process_location]. *)
Definition forwarded_api (t : Target) (api : RepositoryLocationApi)
  : option RepositoryLocationApi :=
  match t with
  | PythonPackage _ => None
  | _ => Some api
  end.

(** Discovered repositories as (attribute, repository name) pairs. *)
Definition found_locally (ts : list LoadableTarget.t) : list (string * string) :=
  map (fun t => (LoadableTarget.attribute t,
                 RepositoryDefinition.name (LoadableTarget.target_definition t)))
      ts.




(** ** A site to run the resolver on *)

Definition repo (attribute name : string) : LoadableTarget.t :=
  LoadableTarget.make attribute (RepositoryDefinition.make name).

Definition symbol (attribute name : string) : LoadableRepositorySymbol.t :=
  LoadableRepositorySymbol.make name attribute.

(** What sits where: "multi" sites host two repositories, every other
    site hosts the repository "prod" at attribute "define_repo". *)
Definition hosts_two (site : string) : bool :=
  String.eqb site "/ws/multi.py" || String.eqb site "pkg.multi".

Definition repositories_at (site : string) : list (string * string) :=
  if hosts_two site
  then [("define_repo", "prod"); ("define_staging", "staging")]
  else [("define_repo", "prod")].

Definition name_at (attribute : string) : string :=
  if String.eqb attribute "define_staging" then "staging" else "prod".

Definition pointer_site (p : CodePointer) : string * string :=
  match p with
  | from_python_file f a _ => (f, a)
  | from_module m a | from_python_package m a => (m, a)
  end.

Definition list_site (args : ListRepositoriesArgs.t)
  : result ListRepositoriesResponse.t :=
  match ListRepositoriesArgs.python_file args,
        ListRepositoriesArgs.module_name args with
  | Some site, _ | None, Some site =>
      Ok (ListRepositoriesResponse.make
            (map (fun r => symbol (fst r) (snd r)) (repositories_at site)))
  | None, None => Raise (External "nothing to list")
  end.

Definition named_grpc_server (name : string) (p : Z) : location_config :=
  grpc_server_entry
    {| port := Some p; socket := None; host := None;
       grpc_location_name := Some name |}.

(** Two documents that both name a location "A". *)
Definition first_document : workspace_config :=
  {| repository := false;
     opt_in := None;
     load_from := Some [named_grpc_server "A" 4000; named_grpc_server "B" 4001] |}.

Definition second_document : workspace_config :=
  {| repository := false;
     opt_in := None;
     load_from := Some [named_grpc_server "A" 5000] |}.

Definition site : Collaborators :=
  {| c_loadable_targets_from_python_file := fun f _ =>
       Ok (map (fun r => repo (fst r) (snd r)) (repositories_at f));
     c_loadable_targets_from_python_module := fun m =>
       Ok (map (fun r => repo (fst r) (snd r)) (repositories_at m));
     c_loadable_targets_from_python_package := fun p =>
       Ok (map (fun r => repo (fst r) (snd r)) (repositories_at p));
     c_def_from_pointer := fun p =>
       Ok (RepositoryDefinition.make (name_at (snd (pointer_site p))));
     c_sync_list_repositories := list_site;
     c_sync_list_repositories_ephemeral_grpc := list_site;
     c_expanduser := fun p => p;
     c_from_legacy_repository_yaml := fun p =>
       Ok (from_python_file p "define_repo" None);
     c_load_yaml_from_path := fun p =>
       if String.eqb p "/ws/second.yaml" then Ok second_document
       else Ok first_document;
     c_ensure_workspace_config := fun _ _ => Ok tt |}.

(** *** Reading a grpc_server entry *)

Definition port_set (cfg : grpc_server_config) : bool :=
  Py.truthy_int (port cfg).

Definition socket_set (cfg : grpc_server_config) : bool :=
  Py.truthy (socket cfg).

Definition host_or_localhost (cfg : grpc_server_config) : string :=
  match Py.nonempty (host cfg) with
  | Some h => h
  | None => "localhost"
  end.

(** The socket when one is set, else the port in decimal. *)
Definition socket_or_port (cfg : grpc_server_config) : string :=
  match Py.nonempty (socket cfg), port cfg with
  | Some s, _ => s
  | None, Some p => Py.str_of_int p
  | None, None => "None"
  end.

Definition port_4000 : grpc_server_config :=
  {| port := Some 4000%Z; socket := None; host := None;
     grpc_location_name := None |}.

(** *** Reading a python_file entry *)

Definition file_path (c : python_file_config) : string :=
  match c with
  | FileStr s => s
  | FileDict p _ _ _ => p
  end.

(** A path taken relative to the directory of the document. *)
Definition relative_to_document (path yaml_path : string) : string :=
  if PosixPath.isabs path then path
  else PosixPath.join (PosixPath.dirname yaml_path) path.

(** The target path and the working directory that
    [_get_python_file_config_data] hands on. *)
Definition resolved_path (c : python_file_config) (yaml_path : string)
  : string :=
  match _get_python_file_config_data c yaml_path with
  | (absolute_path, _, _, _) => absolute_path
  end.

Definition resolved_working_directory (c : python_file_config)
    (yaml_path : string) : option string :=
  match _get_python_file_config_data c yaml_path with
  | (_, _, _, working_directory) => working_directory
  end.

(** *** Reading a merge *)

(** Every handle sits under its own location name, once. *)
Definition keyed_by_location_name (d : Py.dict RepositoryLocationHandle)
  : Prop :=
  NoDup (Py.keys d)
  /\ Forall (fun entry => location_name (snd entry) = fst entry) d.

(** Last document wins: the handle that the last of [workspaces] with a
    location [name] has for it, [earlier] when none has one. *)
Definition last_handle (name : string) (workspaces : list Workspace.t)
    (earlier : option RepositoryLocationHandle)
  : option RepositoryLocationHandle :=
  fold_left
    (fun found workspace =>
       match Py.get (Workspace.location_handle_dict workspace) name with
       | Some handle => Some handle
       | None => found
       end)
    workspaces earlier.

(** *** Reading a repository mapping *)

(** The last of [ts] whose definition reports the name [k]. *)
Definition last_target_named (k : string) (ts : list LoadableTarget.t)
  : option LoadableTarget.t :=
  find (fun x =>
          String.eqb
            (RepositoryDefinition.name (LoadableTarget.target_definition x)) k)
       (rev ts).

(** Every pointer of the mapping [d] is [pointer] at some attribute. *)
Definition pointers_built_by (pointer : string -> CodePointer)
    (d : Py.dict CodePointer) : Prop :=
  forall k p, In (k, p) d -> exists a, p = pointer a.

(** *** Variants of an entry *)

(** The dict form of a shorthand string: the string under the required
    key and no other key. *)
Definition longhand (t : Target) : Target :=
  match t with
  | PythonFile (FileStr s) => PythonFile (FileDict s None None None)
  | PythonModule (ModuleStr s) => PythonModule (ModuleDict s None None)
  | PythonPackage (PackageStr s) => PythonPackage (PackageDict s None None)
  | _ => t
  end.

(** The entry with every empty optional string left out. *)
Definition unset_blanks (t : Target) : Target :=
  match t with
  | PythonFile (FileDict p a l w) =>
      PythonFile (FileDict p (Py.nonempty a) (Py.nonempty l) (Py.nonempty w))
  | PythonModule (ModuleDict m a l) =>
      PythonModule (ModuleDict m (Py.nonempty a) (Py.nonempty l))
  | PythonPackage (PackageDict p a l) =>
      PythonPackage (PackageDict p (Py.nonempty a) (Py.nonempty l))
  | _ => t
  end.

(** The module entry that names what a package entry names. *)
Definition as_module (c : python_package_config) : python_module_config :=
  match c with
  | PackageStr s => ModuleStr s
  | PackageDict p a l => ModuleDict p a l
  end.

Definition package_name_of (c : python_package_config) : string :=
  match c with
  | PackageStr s => s
  | PackageDict p _ _ => p
  end.

(** *** Documents *)

(** A document in the workspace format: no 'repository' key. *)
Definition workspace_document (opt_in : option (list string))
    (entries : list location_config) : workspace_config :=
  {| repository := false; opt_in := opt_in; load_from := Some entries |}.

(** The opt-ins that line 65 reads off a document. *)
Definition opt_ins_of (opt_in : option (list string)) : list string :=
  match opt_in with
  | Some flags => flags
  | None => []
  end.

(** A document at [doc_path] that reads as [doc_config] and resolves to
    [doc_workspace]. *)
Record loaded_document := {
  doc_path : string;
  doc_config : workspace_config;
  doc_workspace : Workspace.t }.

Definition loads (env : Collaborators) (d : loaded_document) : Prop :=
  c_load_yaml_from_path env (doc_path d) = Ok (doc_config d)
  /\ outcome (load_workspace_from_config env (doc_config d) (doc_path d))
     = Ok (doc_workspace d).

(** The site with [missing] taken away: the package of that name does
    not import and the document at that path does not read. *)
Definition site_without (missing : string) : Collaborators :=
  {| c_loadable_targets_from_python_file :=
       c_loadable_targets_from_python_file site;
     c_loadable_targets_from_python_module :=
       c_loadable_targets_from_python_module site;
     c_loadable_targets_from_python_package := fun p =>
       if String.eqb p missing then Raise (External "no such package")
       else c_loadable_targets_from_python_package site p;
     c_def_from_pointer := c_def_from_pointer site;
     c_sync_list_repositories := c_sync_list_repositories site;
     c_sync_list_repositories_ephemeral_grpc :=
       c_sync_list_repositories_ephemeral_grpc site;
     c_expanduser := c_expanduser site;
     c_from_legacy_repository_yaml := c_from_legacy_repository_yaml site;
     c_load_yaml_from_path := fun p =>
       if String.eqb p missing then Raise (External "no such file")
       else c_load_yaml_from_path site p;
     c_ensure_workspace_config := c_ensure_workspace_config site |}.

(** The site where every file, module and package hosts the repositories
    [found], given as (attribute, repository name) pairs. *)
Definition site_hosting (found : list (string * string)) : Collaborators :=
  {| c_loadable_targets_from_python_file := fun _ _ =>
       Ok (map (fun r => repo (fst r) (snd r)) found);
     c_loadable_targets_from_python_module := fun _ =>
       Ok (map (fun r => repo (fst r) (snd r)) found);
     c_loadable_targets_from_python_package := fun _ =>
       Ok (map (fun r => repo (fst r) (snd r)) found);
     c_def_from_pointer := c_def_from_pointer site;
     c_sync_list_repositories := fun _ =>
       Ok (ListRepositoriesResponse.make
             (map (fun r => symbol (fst r) (snd r)) found));
     c_sync_list_repositories_ephemeral_grpc := fun _ =>
       Ok (ListRepositoriesResponse.make
             (map (fun r => symbol (fst r) (snd r)) found));
     c_expanduser := c_expanduser site;
     c_from_legacy_repository_yaml := c_from_legacy_repository_yaml site;
     c_load_yaml_from_path := c_load_yaml_from_path site;
     c_ensure_workspace_config := c_ensure_workspace_config site |}.

(** ** Facts about the Python conventions *)

Lemma nonempty_truthy (o : option string) :
  Py.truthy o = true -> exists s, o = Some s /\ Py.nonempty o = Some s.
Proof.
  destruct o as [s|]; simpl; [|discriminate].
  intros H. exists s. now rewrite H.
Qed.

Lemma nonempty_falsy (o : option string) :
  Py.truthy o = false -> Py.nonempty o = None.
Proof.
  destruct o as [s|]; simpl; [|reflexivity].
  now intros ->.
Qed.

Lemma nonempty_inv (o : option string) (s : string) :
  Py.nonempty o = Some s -> o = Some s /\ Py.truthy o = true.
Proof.
  destruct o as [s'|]; simpl; [|discriminate].
  destruct (Py.truthy_str s') eqn:E; [|discriminate].
  intros [= ->]. now split.
Qed.

Section DictFacts.
Context {V : Type}.
Implicit Types (d : Py.dict V) (k : string) (v : V).

Lemma get_set_same d k v : Py.get (Py.set d k v) k = Some v.
Proof.
  induction d as [|[k' v'] d IH]; simpl.
  - now rewrite String.eqb_refl.
  - destruct (String.eqb k' k) eqn:E; simpl; now rewrite E.
Qed.

Lemma get_set_other d k k' v :
  k <> k' -> Py.get (Py.set d k v) k' = Py.get d k'.
Proof.
  intros Hne. induction d as [|[k0 v0] d IH]; simpl.
  - destruct (String.eqb_spec k k'); congruence.
  - destruct (String.eqb_spec k0 k) as [->|]; simpl.
    + destruct (String.eqb_spec k k'); congruence.
    + now rewrite IH.
Qed.

Lemma keys_set d k v k' :
  In k' (Py.keys (Py.set d k v)) <-> k' = k \/ In k' (Py.keys d).
Proof.
  unfold Py.keys. induction d as [|[k0 v0] d IH]; simpl.
  - intuition.
  - destruct (String.eqb_spec k0 k) as [->|]; simpl.
    + intuition.
    + rewrite IH. intuition.
Qed.

Lemma get_Some_key d k v : Py.get d k = Some v -> In k (Py.keys d).
Proof.
  unfold Py.keys. induction d as [|[k0 v0] d IH]; simpl; [discriminate|].
  destruct (String.eqb_spec k0 k) as [->|]; auto.
Qed.

Lemma key_get d k : In k (Py.keys d) -> exists v, Py.get d k = Some v.
Proof.
  unfold Py.keys. induction d as [|[k0 v0] d IH]; simpl; [easy|].
  intros [->|Hin].
  - rewrite String.eqb_refl. eauto.
  - destruct (String.eqb k0 k); eauto.
Qed.

Lemma get_In d k v : Py.get d k = Some v -> In (k, v) d.
Proof.
  induction d as [|[k0 v0] d IH]; simpl; [discriminate|].
  destruct (String.eqb_spec k0 k) as [->|]; [intros [= ->]|]; auto.
Qed.


(** Keys stay pairwise different under assignment. *)
Lemma set_NoDup d k v : NoDup (Py.keys d) -> NoDup (Py.keys (Py.set d k v)).
Proof.
  unfold Py.keys. induction d as [|[k0 v0] d IH]; simpl; intros Hnd.
  - constructor; [easy|constructor].
  - inversion Hnd as [|? ? Hnotin Hnd']; subst.
    destruct (String.eqb_spec k0 k) as [->|Hne]; simpl.
    + now constructor.
    + constructor; [|now apply IH].
      intros Hin. apply (keys_set d k v k0) in Hin.
      destruct Hin as [->|Hin]; [congruence|contradiction].
Qed.

End DictFacts.

(** ** Facts about the resolver monad *)

Lemma trace_bind {A B} (m : M A) (f : A -> M B) :
  trace (bind m f) =
  match outcome m with
  | Ok a => trace m ++ trace (f a)
  | Raise _ => trace m
  end.
Proof.
  destruct m as [t [a|e]]; simpl; [|reflexivity].
  now destruct (f a).
Qed.

Lemma outcome_bind {A B} (m : M A) (f : A -> M B) :
  outcome (bind m f) =
  match outcome m with
  | Ok a => outcome (f a)
  | Raise e => Raise e
  end.
Proof.
  destruct m as [t [a|e]]; simpl; [|reflexivity].
  now destruct (f a).
Qed.

Lemma bind_lift_Ok {A B} (a : A) (f : A -> M B) : bind (lift (Ok a)) f = f a.
Proof. unfold bind, lift. now destruct (f a). Qed.

Lemma bind_call_Ok {A B} (c : Call) (a : A) (f : A -> M B) :
  bind (call c (Ok a)) f = (c :: trace (f a), outcome (f a)).
Proof. unfold bind, call. now destruct (f a). Qed.

Lemma bind_call_Raise {A B} (c : Call) (e : error) (f : A -> M B) :
  bind (call c (Raise e)) f = ([c], Raise e).
Proof. reflexivity. Qed.

(** ** grpc_server entries *)

Lemma grpc_entry_resolution (env : Collaborators) (cfg : grpc_server_config)
    (yaml_path : string) (opt_ins : list string) :
  _location_handle_from_location_config env (grpc_server_entry cfg) yaml_path
                                        opt_ins
  = ([], _location_handle_from_grpc_server_config cfg yaml_path).
Proof. reflexivity. Qed.

(** C6.  A grpc_server entry in which port and socket are both set, or
    neither is, does not resolve: the check "must supply either a socket
    or a port" fails.  An entry with exactly one of them resolves. *)
Theorem grpc_server_exactly_one_of_port_and_socket
    (env : Collaborators) (cfg : grpc_server_config) (yaml_path : string)
    (opt_ins : list string) :
  (port_set cfg = socket_set cfg ->
   outcome (_location_handle_from_location_config env (grpc_server_entry cfg)
              yaml_path opt_ins)
   = Raise (CheckError "must supply either a socket or a port"))
  /\ (port_set cfg = negb (socket_set cfg) ->
      exists h,
        outcome (_location_handle_from_location_config env
                   (grpc_server_entry cfg) yaml_path opt_ins) = Ok h).
Proof.
  rewrite grpc_entry_resolution. unfold outcome, port_set, socket_set. simpl.
  unfold _location_handle_from_grpc_server_config, _assign_grpc_location_name.
  destruct cfg as [p s h l]; simpl.
  destruct (Py.truthy_int p), (Py.truthy s); simpl; split; intros E;
    try discriminate E; try reflexivity;
    destruct (Py.nonempty l); eauto.
Qed.

Lemma grpc_server_exactly_one_of_port_and_socket_witness :
  outcome (_location_handle_from_location_config site
             (grpc_server_entry
                {| port := Some 4000%Z; socket := Some "/tmp/dagster.sock";
                   host := None; grpc_location_name := None |})
             "/ws/dev.yaml" [])
  = Raise (CheckError "must supply either a socket or a port")
  /\ outcome (_location_handle_from_location_config site
                (grpc_server_entry
                   {| port := None; socket := None;
                      host := Some "example.org"; grpc_location_name := None |})
                "/ws/dev.yaml" [])
     = Raise (CheckError "must supply either a socket or a port")
  /\ exists h,
       outcome (_location_handle_from_location_config site
                  (grpc_server_entry port_4000) "/ws/dev.yaml" []) = Ok h.
Proof.
  split; [|split].
  - apply (grpc_server_exactly_one_of_port_and_socket site
             {| port := Some 4000%Z; socket := Some "/tmp/dagster.sock";
                host := None; grpc_location_name := None |}).
    reflexivity.
  - apply (grpc_server_exactly_one_of_port_and_socket site
             {| port := None; socket := None;
                host := Some "example.org"; grpc_location_name := None |}).
    reflexivity.
  - apply (grpc_server_exactly_one_of_port_and_socket site port_4000).
    reflexivity.
Defined.

(** C7.  A grpc_server entry without a location name, with exactly one
    of port and socket set, resolves to a handle named
    "grpc:{host}:{socket_or_port}", the host being localhost when none
    is configured. *)
Theorem grpc_server_default_location_name
    (env : Collaborators) (cfg : grpc_server_config) (yaml_path : string)
    (opt_ins : list string) :
  Py.truthy (grpc_location_name cfg) = false ->
  port_set cfg = negb (socket_set cfg) ->
  exists h,
    outcome (_location_handle_from_location_config env (grpc_server_entry cfg)
               yaml_path opt_ins) = Ok h
    /\ location_name h
       = ("grpc:" ++ host_or_localhost cfg ++ ":" ++ socket_or_port cfg)%string
    /\ strategy h = GrpcServer.
Proof.
  intros Hname Hone. rewrite grpc_entry_resolution.
  unfold outcome, port_set, socket_set in *. simpl.
  unfold _location_handle_from_grpc_server_config, _assign_grpc_location_name,
    host_or_localhost, socket_or_port.
  destruct cfg as [p s h l]; simpl in *.
  rewrite (nonempty_falsy l Hname).
  destruct (Py.truthy s) eqn:Es; simpl in Hone; rewrite Hone; simpl.
  - destruct (nonempty_truthy s Es) as (s' & -> & ->). eauto.
  - rewrite (nonempty_falsy s Es).
    destruct p as [p|]; [|discriminate Hone]. eauto.
Qed.

Lemma grpc_server_default_location_name_witness :
  exists h,
    outcome (_location_handle_from_location_config site
               (grpc_server_entry port_4000) "/ws/dev.yaml" []) = Ok h
    /\ location_name h = "grpc:localhost:4000"
    /\ strategy h = GrpcServer.
Proof.
  apply (grpc_server_default_location_name site port_4000 "/ws/dev.yaml" []);
    reflexivity.
Defined.

(** ** Paths of python_file entries *)

Lemma head_of_absolute (p : string) :
  PosixPath.isabs p = true -> PosixPath.isabs (PosixPath.head_of p) = true.
Proof.
  destruct p as [|c p]; simpl; [discriminate|].
  destruct c as [[] [] [] [] [] [] [] []]; try discriminate.
  intros _. simpl. now destruct (PosixPath.head_of p).
Qed.

Lemma rstrip_sep_empty (p : string) :
  PosixPath.rstrip_sep p = EmptyString -> PosixPath.all_sep p = true.
Proof.
  induction p as [|c p IH]; simpl; [reflexivity|].
  destruct (PosixPath.rstrip_sep p); [|discriminate].
  destruct (Ascii.eqb c "/"); [|discriminate].
  intros _. now rewrite IH.
Qed.

Lemma rstrip_sep_absolute (p : string) :
  PosixPath.isabs p = true -> PosixPath.all_sep p = false ->
  PosixPath.isabs (PosixPath.rstrip_sep p) = true.
Proof.
  destruct p as [|c p]; simpl; [discriminate|].
  destruct c as [[] [] [] [] [] [] [] []]; try discriminate.
  intros _. simpl. intros Hall.
  destruct (PosixPath.rstrip_sep p) eqn:E; [|reflexivity].
  apply rstrip_sep_empty in E. congruence.
Qed.

Lemma dirname_absolute (p : string) :
  PosixPath.isabs p = true -> PosixPath.isabs (PosixPath.dirname p) = true.
Proof.
  intros Habs. apply head_of_absolute in Habs. unfold PosixPath.dirname.
  destruct (Py.truthy_str (PosixPath.head_of p)); simpl; [|assumption].
  destruct (PosixPath.all_sep (PosixPath.head_of p)) eqn:E; simpl;
    [assumption|].
  now apply rstrip_sep_absolute.
Qed.

Lemma join_absolute (a b : string) :
  PosixPath.isabs a = true -> PosixPath.isabs (PosixPath.join a b) = true.
Proof.
  unfold PosixPath.join, PosixPath.isabs. intros Ha.
  destruct (Py.startswith_sep b) eqn:Eb; [assumption|].
  destruct a as [|c a]; [discriminate|].
  now destruct (negb (Py.truthy_str (String c a)) || Py.endswith_sep (String c a)).
Qed.

Lemma relative_to_document_absolute (path yaml_path : string) :
  PosixPath.isabs yaml_path = true ->
  PosixPath.isabs (relative_to_document path yaml_path) = true.
Proof.
  intros Hdoc. unfold relative_to_document.
  destruct (PosixPath.isabs path) eqn:E; [assumption|].
  now apply join_absolute, dirname_absolute.
Qed.

(** C9.  For a python_file target in a document at [yaml_path]: a
    relative target path is joined to the directory of the document, an
    absolute one is kept; a working directory that is set is treated the
    same way, one that is unset or empty stays unset.  The result depends
    on the entry and the document path only, and is absolute whenever the
    document path is. *)
Theorem python_file_paths_relative_to_document
    (c : python_file_config) (yaml_path : string) :
  (PosixPath.isabs (file_path c) = false ->
   resolved_path c yaml_path
   = PosixPath.join (PosixPath.dirname yaml_path) (file_path c))
  /\ (PosixPath.isabs (file_path c) = true ->
      resolved_path c yaml_path = file_path c)
  /\ (forall w,
        Py.nonempty (target_working_directory (PythonFile c)) = Some w ->
        resolved_working_directory c yaml_path
        = Some (if PosixPath.isabs w then w
                else PosixPath.join (PosixPath.dirname yaml_path) w))
  /\ (Py.truthy (target_working_directory (PythonFile c)) = false ->
      resolved_working_directory c yaml_path = None)
  /\ (PosixPath.isabs yaml_path = true ->
      PosixPath.isabs (resolved_path c yaml_path) = true).
Proof.
  unfold resolved_path, resolved_working_directory.
  destruct c as [s|p a l w]; simpl; unfold rebase_file;
    repeat split; try (intros ->; reflexivity); try discriminate;
    try (intros; now apply (relative_to_document_absolute _ yaml_path)).
  - intros w' ->. reflexivity.
  - intros Hw. now rewrite (nonempty_falsy w Hw).
Qed.

Lemma python_file_paths_relative_to_document_witness :
  resolved_path (FileDict "repo.py" None None (Some "code")) "/ws/dev.yaml"
  = "/ws/repo.py"
  /\ resolved_path (FileStr "/opt/repo.py") "/ws/dev.yaml" = "/opt/repo.py"
  /\ resolved_working_directory
       (FileDict "repo.py" None None (Some "code")) "/ws/dev.yaml"
     = Some "/ws/code"
  /\ resolved_working_directory (FileDict "repo.py" None None None)
       "/ws/dev.yaml" = None.
Proof.
  pose proof (python_file_paths_relative_to_document
                (FileDict "repo.py" None None (Some "code")) "/ws/dev.yaml")
    as (Hrel & _ & Hwd & _ & _).
  pose proof (python_file_paths_relative_to_document
                (FileStr "/opt/repo.py") "/ws/dev.yaml")
    as (_ & Habs & _).
  pose proof (python_file_paths_relative_to_document
                (FileDict "repo.py" None None None) "/ws/dev.yaml")
    as (_ & _ & _ & Hunset & _).
  split; [|split; [|split]].
  - exact (Hrel eq_refl).
  - exact (Habs eq_refl).
  - exact (Hwd "code" eq_refl).
  - exact (Hunset eq_refl).
Defined.

(** ** What resolving one entry amounts to *)

Arguments assign_location_name : simpl never.
Arguments create_python_env_location : simpl never.
Arguments create_out_of_process_location : simpl never.
Arguments pointers_by_repository_name : simpl never.
Arguments pointers_by_attribute : simpl never.
Arguments rebase_file : simpl never.
Arguments api_of_opt_ins : simpl never.

Ltac unfold_resolver :=
  unfold _location_handle_from_location_config,
    _location_handle_from_target_config,
    _location_handle_from_python_environment_config,
    location_handle_from_python_file_config,
    _location_handle_from_module_config,
    _location_handle_from_package_config,
    location_handle_from_python_file,
    location_handle_from_module_name,
    location_handle_from_package_name,
    load_def_in_python_file, load_def_in_module, load_def_in_package,
    def_from_pointer,
    loadable_targets_from_python_file, loadable_targets_from_python_module,
    loadable_targets_from_python_package,
    _list_repositories, sync_list_repositories,
    sync_list_repositories_ephemeral_grpc.

(** A bare entry without attribute: one call of the target loader, then
    the naming and the handle. *)
Lemma bare_entry_discovers (env : Collaborators) (t : Target)
    (yaml_path : string) (opt_ins : list string) :
  is_target_config (target_dict t) = true ->
  Py.nonempty (target_attribute t) = None ->
  _location_handle_from_location_config env (bare_entry t) yaml_path opt_ins
  = ([local_call t yaml_path],
     match local_answer env t yaml_path with
     | Ok ts =>
         let d := pointers_by_repository_name (target_pointer t yaml_path) ts in
         match assign_location_name (target_location_name t) d with
         | Ok name =>
             Ok (create_out_of_process_location d name
                   (forwarded_api t (api_of_opt_ins opt_ins)))
         | Raise e => Raise e
         end
     | Raise e => Raise e
     end).
Proof.
  intros Htarget Hattr. unfold_resolver.
  unfold bare_entry. cbn [target_keys]. rewrite Htarget. cbn [negb].
  destruct t as [[s|p a l w]|[s|m a l]|[s|p a l]]; cbn in Hattr |- *;
    try rewrite Hattr; unfold local_answer, local_call, target_pointer; cbn;
    repeat match goal with
    | |- context [match ?x with Ok _ => _ | Raise _ => _ end] =>
        destruct x; cbn
    end; reflexivity.
Qed.

Lemma pointers_by_repository_name_one (pointer : string -> CodePointer)
    (a : string) (def : RepositoryDefinition.t) :
  pointers_by_repository_name pointer [LoadableTarget.make a def]
  = [(RepositoryDefinition.name def, pointer a)].
Proof. reflexivity. Qed.

(** A bare entry with an attribute: the attribute is loaded, nothing is
    enumerated. *)
Lemma bare_entry_loads (env : Collaborators) (t : Target)
    (yaml_path : string) (opt_ins : list string) (a : string) :
  Py.nonempty (target_attribute t) = Some a ->
  _location_handle_from_location_config env (bare_entry t) yaml_path opt_ins
  = ([DefFromPointer (target_pointer t yaml_path a)],
     match c_def_from_pointer env (target_pointer t yaml_path a) with
     | Ok def =>
         let d := [(RepositoryDefinition.name def,
                    target_pointer t yaml_path a)] in
         match assign_location_name (target_location_name t) d with
         | Ok name =>
             Ok (create_out_of_process_location d name
                   (forwarded_api t (api_of_opt_ins opt_ins)))
         | Raise e => Raise e
         end
     | Raise e => Raise e
     end).
Proof.
  intros Hattr. unfold_resolver. unfold bare_entry. cbn [target_keys].
  destruct t as [[s|p a' l w]|[s|m a' l]|[s|p a' l]]; cbn in Hattr;
    try discriminate Hattr; cbn; rewrite Hattr; unfold target_pointer; cbn;
    match goal with
    | |- context [c_def_from_pointer ?e ?p] =>
        destruct (c_def_from_pointer e p) as [def|err]; cbn; [|reflexivity]
    end;
    rewrite !pointers_by_repository_name_one;
    repeat match goal with
    | |- context [match ?x with Ok _ => _ | Raise _ => _ end] =>
        destruct x; cbn
    end; reflexivity.
Qed.

(** A python_environment entry without attribute: one call of the
    remote lister, in the transport the api selects. *)
Lemma environment_entry_discovers (env : Collaborators) (exe : string)
    (t : Target) (yaml_path : string) (opt_ins : list string) :
  is_target_config (target_dict t) = true ->
  Py.nonempty (target_attribute t) = None ->
  let api := api_of_opt_ins opt_ins in
  let args := remote_args (c_expanduser env exe) t yaml_path in
  _location_handle_from_location_config env (python_environment_entry exe t)
                                        yaml_path opt_ins
  = ([remote_call api args],
     match remote_answer env api args with
     | Ok response =>
         create_python_env_location (c_expanduser env exe)
           (target_location_name t)
           (pointers_by_attribute (target_pointer t yaml_path)
              (ListRepositoriesResponse.repository_symbols response))
           api
     | Raise e => Raise e
     end).
Proof.
  intros Htarget Hattr. unfold_resolver.
  unfold python_environment_entry. cbn [target_keys grpc_server
    python_environment is_target_config no_target python_file python_module
    python_package truthy_file truthy_module truthy_package orb target
    executable_path].
  rewrite Htarget. cbn [negb].
  unfold is_target_config in Htarget.
  destruct t as [[s|p a l w]|[s|m a l]|[s|p a l]];
    cbn in Htarget, Hattr |- *; rewrite ?orb_false_r in Htarget;
    try rewrite Htarget; try rewrite Hattr;
    unfold remote_args, remote_call, remote_answer, target_pointer; cbn;
    destruct (api_of_opt_ins opt_ins); cbn;
    repeat match goal with
    | |- context [match ?x with Ok _ => _ | Raise _ => _ end] =>
        destruct x; cbn
    end; reflexivity.
Qed.

(** A python_environment entry with an attribute: no call at all. *)
Lemma environment_entry_speculates (env : Collaborators) (exe : string)
    (t : Target) (yaml_path : string) (opt_ins : list string) (a : string) :
  Py.nonempty (target_attribute t) = Some a ->
  _location_handle_from_location_config env (python_environment_entry exe t)
                                        yaml_path opt_ins
  = ([],
     create_python_env_location (c_expanduser env exe) (target_location_name t)
       [(a, target_pointer t yaml_path a)] (api_of_opt_ins opt_ins)).
Proof.
  intros Hattr. unfold_resolver. unfold python_environment_entry.
  destruct t as [[s|p a' l w]|[s|m a' l]|[s|p a' l]]; cbn in Hattr;
    try discriminate Hattr; cbn; rewrite Hattr; reflexivity.
Qed.

(** ** Dicts built by repeated assignment *)

Section Assignments.
Context {A V : Type} (key : A -> string) (value : A -> V).

Lemma assigned_keys (xs : list A) (d : Py.dict V) (k : string) :
  In k (Py.keys (fold_left (fun d x => Py.set d (key x) (value x)) xs d))
  <-> In k (Py.keys d) \/ In k (map key xs).
Proof.
  revert d. induction xs as [|x xs IH]; intros d.
  - cbn. tauto.
  - cbn [fold_left map In]. rewrite IH, keys_set. intuition.
Qed.

Lemma assigned_entries (P : string * V -> Prop) (xs : list A)
    (d : Py.dict V) :
  (forall x, In x xs -> P (key x, value x)) ->
  Forall P d ->
  Forall P (fold_left (fun d x => Py.set d (key x) (value x)) xs d).
Proof.
  revert d. induction xs as [|x xs IH]; intros d Hxs Hd; [assumption|].
  cbn [fold_left]. apply IH; [intros y Hy; apply Hxs; now right|].
  assert (Hx : P (key x, value x)) by (apply Hxs; now left).
  clear IH Hxs.
  induction d as [|[k v] d IHd]; cbn.
  - now constructor.
  - inversion Hd; subst.
    destruct (String.eqb_spec k (key x)) as [->|]; constructor; auto.
Qed.

End Assignments.

Lemma keys_by_repository_name (pointer : string -> CodePointer)
    (ts : list LoadableTarget.t) (k : string) :
  In k (Py.keys (pointers_by_repository_name pointer ts))
  <-> In k (map snd (found_locally ts)).
Proof.
  unfold pointers_by_repository_name, found_locally.
  rewrite assigned_keys, map_map. cbn. tauto.
Qed.

Lemma keys_by_attribute (pointer : string -> CodePointer)
    (symbols : list LoadableRepositorySymbol.t) (k : string) :
  In k (Py.keys (pointers_by_attribute pointer symbols))
  <-> In k (map LoadableRepositorySymbol.attribute symbols).
Proof.
  unfold pointers_by_attribute. rewrite assigned_keys. cbn. tauto.
Qed.

Lemma entries_by_attribute (pointer : string -> CodePointer)
    (symbols : list LoadableRepositorySymbol.t) (k : string) (p : CodePointer) :
  In (k, p) (pointers_by_attribute pointer symbols) -> p = pointer k.
Proof.
  unfold pointers_by_attribute. intros Hin.
  pose proof (assigned_entries LoadableRepositorySymbol.attribute
                (fun s => pointer (LoadableRepositorySymbol.attribute s))
                (fun kv => snd kv = pointer (fst kv)) symbols [])
    as Hall.
  specialize (Hall (fun _ _ => eq_refl) (Forall_nil _)).
  rewrite Forall_forall in Hall. exact (Hall (k, p) Hin).
Qed.

(** ** Naming *)



Lemma assign_location_name_one (location_name : option string) (k : string)
    (p : CodePointer) :
  exists name, assign_location_name location_name [(k, p)] = Ok name.
Proof.
  unfold assign_location_name.
  destruct (Py.nonempty location_name); cbn; eauto.
Qed.







(** ** Which collaborator is asked *)

(** C8.  For a target with an explicit attribute, nothing is enumerated.
    A bare entry loads that one attribute (the only call is the load of
    its pointer) and its mapping has the one entry of the loaded
    definition; a python_environment entry makes no call at all and its
    mapping has the one entry of the pointer built from the attribute. *)
Theorem explicit_attribute_skips_discovery
    (env : Collaborators) (exe : string) (t : Target) (yaml_path : string)
    (opt_ins : list string) (a : string) :
  Py.nonempty (target_attribute t) = Some a ->
  let pointer := target_pointer t yaml_path a in
  let bare :=
    _location_handle_from_location_config env (bare_entry t) yaml_path
                                          opt_ins in
  let remote :=
    _location_handle_from_location_config env (python_environment_entry exe t)
                                          yaml_path opt_ins in
  trace bare = [DefFromPointer pointer]
  /\ existsb discovery (trace bare) = false
  /\ (forall def,
        c_def_from_pointer env pointer = Ok def ->
        exists h,
          outcome bare = Ok h
          /\ repository_code_pointer_dict h
             = [(RepositoryDefinition.name def, pointer)])
  /\ trace remote = []
  /\ exists h,
       outcome remote = Ok h
       /\ repository_code_pointer_dict h = [(a, pointer)].
Proof.
  intros Hattr pointer bare remote. subst bare remote.
  rewrite (bare_entry_loads env t yaml_path opt_ins a Hattr).
  rewrite (environment_entry_speculates env exe t yaml_path opt_ins a Hattr).
  fold pointer. unfold trace, outcome. cbn [fst snd].
  repeat split.
  - intros def ->. cbn zeta.
    destruct (assign_location_name_one (target_location_name t)
                (RepositoryDefinition.name def) pointer) as [name ->].
    eexists. split; reflexivity.
  - unfold create_python_env_location.
    destruct (assign_location_name_one (target_location_name t) a pointer)
      as [name ->].
    eexists. split; reflexivity.
Qed.

Lemma explicit_attribute_skips_discovery_witness :
  trace (_location_handle_from_location_config site
           (bare_entry (PythonFile
              (FileDict "repo.py" (Some "define_repo") None None)))
           "/ws/dev.yaml" [])
  = [DefFromPointer (from_python_file "/ws/repo.py" "define_repo" None)]
  /\ trace (_location_handle_from_location_config site
              (python_environment_entry "/venv/bin/python"
                 (PythonFile
                    (FileDict "repo.py" (Some "define_repo") None None)))
              "/ws/dev.yaml" [])
     = [].
Proof.
  pose proof (explicit_attribute_skips_discovery site "/venv/bin/python"
                (PythonFile (FileDict "repo.py" (Some "define_repo") None None))
                "/ws/dev.yaml" [] "define_repo" eq_refl)
    as (Hbare & _ & _ & Hremote & _).
  split; [exact Hbare | exact Hremote].
Defined.

(** C10.  A python_environment entry with a python_file target, no
    attribute and a working directory: the remote lister is asked with
    no working directory, while every pointer of the resulting handle
    carries the rebased working directory. *)
Theorem environment_file_discovery_omits_working_directory
    (env : Collaborators) (exe p : string) (a l w : option string)
    (wd yaml_path : string) (opt_ins : list string) :
  Py.truthy a = false ->
  Py.nonempty w = Some wd ->
  let run :=
    _location_handle_from_location_config env
      (python_environment_entry exe (PythonFile (FileDict p a l w)))
      yaml_path opt_ins in
  let args :=
    ListRepositoriesArgs.make (c_expanduser env exe)
      (Some (rebase_file p yaml_path)) None None in
  trace run = [remote_call (api_of_opt_ins opt_ins) args]
  /\ ListRepositoriesArgs.working_directory args = None
  /\ forall h,
       outcome run = Ok h ->
       exists response,
         remote_answer env (api_of_opt_ins opt_ins) args = Ok response
         /\ (forall s,
               In s (ListRepositoriesResponse.repository_symbols response) ->
               In (LoadableRepositorySymbol.attribute s)
                  (Py.keys (repository_code_pointer_dict h)))
         /\ (forall k pointer,
               In (k, pointer) (repository_code_pointer_dict h) ->
               pointer
               = from_python_file (rebase_file p yaml_path) k
                   (Some (rebase_file wd yaml_path))).
Proof.
  intros Hattr Hwd run args. subst run.
  rewrite (environment_entry_discovers env exe
             (PythonFile (FileDict p a l w)) yaml_path opt_ins eq_refl
             (nonempty_falsy a Hattr)).
  unfold remote_args, target_pointer. cbn [trace outcome fst snd].
  fold args. repeat split.
  intros h Hh.
  destruct (remote_answer env (api_of_opt_ins opt_ins) args)
    as [response|e]; [|discriminate Hh].
  exists response. split; [reflexivity|].
  unfold create_python_env_location in Hh.
  destruct (assign_location_name _ _) as [name|e]; [|discriminate Hh].
  injection Hh as <-. cbn [repository_code_pointer_dict payload].
  rewrite Hwd. split.
  - intros s Hs. apply keys_by_attribute. now apply in_map.
  - intros k pointer Hin.
    now apply entries_by_attribute in Hin.
Qed.

Lemma environment_file_discovery_omits_working_directory_witness :
  trace (_location_handle_from_location_config site
           (python_environment_entry "/venv/bin/python"
              (PythonFile (FileDict "repo.py" None None (Some "code"))))
           "/ws/dev.yaml" [])
  = [SyncListRepositories
       (ListRepositoriesArgs.make "/venv/bin/python" (Some "/ws/repo.py")
          None None)]
  /\ forall h k pointer,
       outcome (_location_handle_from_location_config site
                  (python_environment_entry "/venv/bin/python"
                     (PythonFile (FileDict "repo.py" None None (Some "code"))))
                  "/ws/dev.yaml" []) = Ok h ->
       In (k, pointer) (repository_code_pointer_dict h) ->
       pointer = from_python_file "/ws/repo.py" k (Some "/ws/code").
Proof.
  pose proof (environment_file_discovery_omits_working_directory site
                "/venv/bin/python" "repo.py" None None (Some "code") "code"
                "/ws/dev.yaml" [] eq_refl eq_refl)
    as (Htrace & _ & Hpointers).
  split; [exact Htrace|].
  intros h k pointer Hh Hin.
  destruct (Hpointers h Hh) as (_ & _ & _ & Hall).
  exact (Hall k pointer Hin).
Defined.

(** C3, as the code has it.  The api is read from the opt-ins of the
    document; for an entry without attribute it decides the transport of
    the remote lister for python_environment entries only: the rpc
    transport with the opt-in, the plain subprocess without.  A bare
    entry is enumerated in process by the target loader, with or without
    the opt-in. *)
Theorem enumeration_strategy_by_entry_kind
    (env : Collaborators) (exe : string) (t : Target) (yaml_path : string)
    (opt_ins : list string) :
  is_target_config (target_dict t) = true ->
  Py.truthy (target_attribute t) = false ->
  let args := remote_args (c_expanduser env exe) t yaml_path in
  trace (_location_handle_from_location_config env
           (python_environment_entry exe t) yaml_path opt_ins)
  = [if grpc_opted_in opt_ins
     then SyncListRepositoriesEphemeralGrpc args
     else SyncListRepositories args]
  /\ trace (_location_handle_from_location_config env (bare_entry t)
              yaml_path opt_ins)
     = [local_call t yaml_path]
  /\ local_enumeration (local_call t yaml_path) = true
  /\ remote_enumeration (local_call t yaml_path) = false.
Proof.
  intros Htarget Hattr args. apply nonempty_falsy in Hattr.
  rewrite (environment_entry_discovers env exe t yaml_path opt_ins
             Htarget Hattr).
  rewrite (bare_entry_discovers env t yaml_path opt_ins Htarget Hattr).
  cbn [trace fst]. fold args. unfold api_of_opt_ins, remote_call.
  repeat split.
  - now destruct (grpc_opted_in opt_ins).
  - unfold local_call. now destruct (target_pointer t yaml_path "").
  - unfold local_call. now destruct (target_pointer t yaml_path "").
Qed.

Lemma enumeration_strategy_by_entry_kind_witness :
  trace (_location_handle_from_location_config site
           (python_environment_entry "/venv/bin/python"
              (PythonModule (ModuleStr "pkg.repo")))
           "/ws/dev.yaml" ["grpc"])
  = [SyncListRepositoriesEphemeralGrpc
       (ListRepositoriesArgs.make "/venv/bin/python" None (Some "pkg.repo")
          None)]
  /\ trace (_location_handle_from_location_config site
              (bare_entry (PythonModule (ModuleStr "pkg.repo")))
              "/ws/dev.yaml" ["grpc"])
     = [LoadableTargetsFromPythonModule "pkg.repo"].
Proof.
  pose proof (enumeration_strategy_by_entry_kind site "/venv/bin/python"
                (PythonModule (ModuleStr "pkg.repo")) "/ws/dev.yaml" ["grpc"]
                eq_refl eq_refl)
    as (Hremote & Hbare & _).
  split; [exact Hremote | exact Hbare].
Defined.

(** C3 as stated fails: with the rpc opt-in present, the bare module
    entry "pkg.repo" is enumerated by the in-process target loader and
    the remote lister is never called. *)
Lemma bare_entry_with_rpc_opt_in_is_enumerated_in_process :
  grpc_opted_in ["grpc"] = true
  /\ Py.truthy (target_attribute (PythonModule (ModuleStr "pkg.repo"))) = false
  /\ ~ (exists c,
          In c (trace (_location_handle_from_location_config site
                         (bare_entry (PythonModule (ModuleStr "pkg.repo")))
                         "/ws/dev.yaml" ["grpc"]))
          /\ remote_enumeration c = true).
Proof.
  split; [reflexivity|]. split; [reflexivity|].
  intros (c & Hin & Hremote). cbn in Hin.
  destruct Hin as [<-|[]]. discriminate Hremote.
Qed.

(** ** The strategy tag of bare entries *)

(** The package builder never reads its [api]. *)
Lemma location_handle_from_package_name_ignores_api
    (env : Collaborators) (package_name : string)
    (attribute location_name : option string) :
  location_handle_from_package_name env package_name attribute GRPC
                                    location_name
  = location_handle_from_package_name env package_name attribute CLI
                                      location_name.
Proof. reflexivity. Qed.

(** The tag of a resolved bare entry follows the api the builder
    forwards: file and module builders forward it, the package builder
    does not. *)
Lemma bare_entry_strategy (env : Collaborators) (t : Target)
    (yaml_path : string) (opt_ins : list string)
    (h : RepositoryLocationHandle) :
  is_target_config (target_dict t) = true ->
  outcome (_location_handle_from_location_config env (bare_entry t)
             yaml_path opt_ins) = Ok h ->
  strategy h
  = match forwarded_api t (api_of_opt_ins opt_ins) with
    | Some GRPC => RPC
    | _ => OutOfProcessCLI
    end.
Proof.
  intros Htarget.
  destruct (Py.nonempty (target_attribute t)) as [a|] eqn:Hattr.
  - rewrite (bare_entry_loads env t yaml_path opt_ins a Hattr).
    cbn [outcome snd].
    destruct (c_def_from_pointer _ _); [|discriminate]. cbn zeta.
    destruct (assign_location_name _ _); [|discriminate].
    intros [= <-]. unfold create_out_of_process_location. cbn.
    now destruct (forwarded_api _ _) as [[]|].
  - rewrite (bare_entry_discovers env t yaml_path opt_ins Htarget Hattr).
    cbn [outcome snd].
    destruct (local_answer _ _ _); [|discriminate]. cbn zeta.
    destruct (assign_location_name _ _); [|discriminate].
    intros [= <-]. unfold create_out_of_process_location. cbn.
    now destruct (forwarded_api _ _) as [[]|].
Qed.

(** C4 at the failing input.  With the rpc opt-in, the bare
    python_package entry "pkg" resolves to a handle tagged
    OutOfProcessCLI, where the python_module and python_file entries
    resolve to handles tagged RPC. *)
Theorem package_entry_with_rpc_opt_in_is_tagged_cli :
  let resolved t :=
    outcome (_location_handle_from_location_config site (bare_entry t)
               "/ws/dev.yaml" ["grpc"]) in
  api_of_opt_ins ["grpc"] = GRPC
  /\ (exists h, resolved (PythonPackage (PackageStr "pkg")) = Ok h
                /\ strategy h = OutOfProcessCLI)
  /\ (exists h, resolved (PythonModule (ModuleStr "pkg")) = Ok h
                /\ strategy h = RPC)
  /\ (exists h, resolved (PythonFile (FileStr "repo.py")) = Ok h
                /\ strategy h = RPC).
Proof.
  cbv zeta. split; [reflexivity|].
  repeat split; eexists; (split; [vm_compute; reflexivity | reflexivity]).
Qed.

(** ** Keys of the repository mapping *)

(** C2, as the code has it.  The mapping of a handle resolved from a
    bare entry is keyed by exactly the names the loaded repositories
    report, and so is the single-entry mapping of the in-process handle
    of a legacy document.  The mapping of a python_environment entry
    with an explicit attribute has that attribute as its only key. *)
Theorem mapping_keys_by_entry_kind
    (env : Collaborators) (exe : string) (t : Target) (yaml_path : string)
    (opt_ins : list string) :
  is_target_config (target_dict t) = true ->
  (forall h,
     outcome (_location_handle_from_location_config env (bare_entry t)
                yaml_path opt_ins) = Ok h ->
     exists ts,
       loaded_targets env t yaml_path = Ok ts
       /\ forall k,
            In k (Py.keys (repository_code_pointer_dict h))
            <-> In k (map snd (found_locally ts)))
  /\ (forall a h,
        Py.nonempty (target_attribute t) = Some a ->
        outcome (_location_handle_from_location_config env
                   (python_environment_entry exe t) yaml_path opt_ins) = Ok h ->
        Py.keys (repository_code_pointer_dict h) = [a])
  /\ (forall pointer h,
        outcome (create_in_process_location env pointer) = Ok h ->
        exists def,
          c_def_from_pointer env pointer = Ok def
          /\ Py.keys (repository_code_pointer_dict h)
             = [RepositoryDefinition.name def]).
Proof.
  intros Htarget. split; [|split].
  - intros h. unfold loaded_targets.
    destruct (Py.nonempty (target_attribute t)) as [a|] eqn:Hattr.
    + rewrite (bare_entry_loads env t yaml_path opt_ins a Hattr).
      cbn [outcome snd].
      destruct (c_def_from_pointer _ _) as [def|]; [|discriminate].
      cbn zeta.
      destruct (assign_location_name _ _); [|discriminate].
      intros [= <-]. eexists. split; [reflexivity|].
      unfold create_out_of_process_location. cbn. tauto.
    + rewrite (bare_entry_discovers env t yaml_path opt_ins Htarget Hattr).
      cbn [outcome snd].
      destruct (local_answer _ _ _) as [ts|]; [|discriminate]. cbn zeta.
      destruct (assign_location_name _ _); [|discriminate].
      intros [= <-]. exists ts. split; [reflexivity|].
      intros k. cbn [repository_code_pointer_dict payload
                       create_out_of_process_location].
      apply keys_by_repository_name.
  - intros a h Hattr.
    rewrite (environment_entry_speculates env exe t yaml_path opt_ins a Hattr).
    cbn [outcome snd]. unfold create_python_env_location.
    destruct (assign_location_name _ _); [|discriminate].
    now intros [= <-].
  - intros pointer h. unfold create_in_process_location, def_from_pointer.
    destruct (c_def_from_pointer env pointer) as [def|]; [|discriminate].
    cbn. intros [= <-]. now exists def.
Qed.

Lemma mapping_keys_by_entry_kind_witness :
  (exists ts,
     loaded_targets site (PythonModule (ModuleStr "pkg.repo")) "/ws/dev.yaml"
     = Ok ts
     /\ forall k,
          In k ["prod"] <-> In k (map snd (found_locally ts)))
  /\ exists h,
       outcome (_location_handle_from_location_config site
                  (python_environment_entry "/venv/bin/python"
                     (PythonModule
                        (ModuleDict "pkg.repo" (Some "define_repo") None)))
                  "/ws/dev.yaml" []) = Ok h
       /\ Py.keys (repository_code_pointer_dict h) = ["define_repo"].
Proof.
  split.
  - pose proof (mapping_keys_by_entry_kind site "/venv/bin/python"
                  (PythonModule (ModuleStr "pkg.repo")) "/ws/dev.yaml" []
                  eq_refl)
      as (Hbare & _).
    exact (Hbare {| location_name := "prod";
                    strategy := OutOfProcessCLI;
                    payload := Repositories
                      [("prod", from_module "pkg.repo" "define_repo")] |}
                 eq_refl).
  - pose proof (mapping_keys_by_entry_kind site "/venv/bin/python"
                  (PythonModule
                     (ModuleDict "pkg.repo" (Some "define_repo") None))
                  "/ws/dev.yaml" [] eq_refl)
      as (_ & Hremote & _).
    eexists. split; [reflexivity|].
    exact (Hremote "define_repo" _ eq_refl eq_refl).
Defined.

(** C2 as stated fails: the repository at attribute "define_repo" of
    module "pkg.repo" reports the name "prod", and the python_environment
    entry that names the attribute resolves to a mapping whose only key
    is "define_repo". *)
Lemma environment_mapping_is_keyed_by_attribute :
  c_def_from_pointer site (from_module "pkg.repo" "define_repo")
  = Ok (RepositoryDefinition.make "prod")
  /\ exists h,
       outcome (_location_handle_from_location_config site
                  (python_environment_entry "/venv/bin/python"
                     (PythonModule
                        (ModuleDict "pkg.repo" (Some "define_repo") None)))
                  "/ws/dev.yaml" []) = Ok h
       /\ strategy h = PythonEnvironment
       /\ Py.keys (repository_code_pointer_dict h) = ["define_repo"]
       /\ ~ In "prod" (Py.keys (repository_code_pointer_dict h)).
Proof.
  split; [reflexivity|]. eexists. split; [reflexivity|].
  split; [reflexivity|]. split; [reflexivity|].
  cbn. intros [H|[]]. discriminate H.
Qed.

(** ** Merging documents *)

Lemma set_Forall {V} (P : string * V -> Prop) (d : Py.dict V) (k : string)
    (v : V) :
  P (k, v) -> Forall P d -> Forall P (Py.set d k v).
Proof.
  intros Hkv. induction d as [|[k0 v0] d IH]; cbn; intros Hd.
  - now constructor.
  - inversion Hd; subst.
    destruct (String.eqb_spec k0 k) as [->|]; constructor; auto.
Qed.

Lemma set_keyed (d : Py.dict RepositoryLocationHandle)
    (h : RepositoryLocationHandle) (k : string) :
  location_name h = k -> keyed_by_location_name d ->
  keyed_by_location_name (Py.set d k h).
Proof.
  intros Hk [Hnodup Hall]. split.
  - now apply set_NoDup.
  - now apply set_Forall.
Qed.

Lemma create_keyed (handles : list RepositoryLocationHandle) :
  keyed_by_location_name
    (Workspace.location_handle_dict (Workspace.create handles)).
Proof.
  unfold Workspace.create. cbn [Workspace.location_handle_dict].
  assert (H : keyed_by_location_name []) by (split; constructor).
  revert H. generalize (@nil (string * RepositoryLocationHandle)).
  induction handles as [|h handles IH]; intros d Hd; cbn; [assumption|].
  apply IH. now apply set_keyed.
Qed.

Lemma set_fresh {V} (d : Py.dict V) (k : string) (v : V) :
  ~ In k (Py.keys d) -> Py.set d k v = d ++ [(k, v)].
Proof.
  induction d as [|[k0 v0] d IH]; cbn; intros Hfresh; [reflexivity|].
  destruct (String.eqb_spec k0 k) as [->|]; [tauto|].
  rewrite IH; tauto.
Qed.

(** A workspace made of the values of a keyed dict has that dict. *)
Lemma create_of_values (d : Py.dict RepositoryLocationHandle) :
  keyed_by_location_name d ->
  Workspace.create (Py.values d) = Workspace.make d.
Proof.
  intros Hd. unfold Workspace.create. f_equal.
  enough (H : forall done todo,
             keyed_by_location_name (done ++ todo) ->
             fold_left (fun acc rlh => Py.set acc (location_name rlh) rlh)
                       (Py.values todo) done
             = done ++ todo)
    by exact (H [] d Hd).
  intros done todo. revert done.
  induction todo as [|[k h] todo IH]; intros done Hkeyed; cbn.
  - now rewrite app_nil_r.
  - destruct Hkeyed as [Hnodup Hall].
    assert (Hk : location_name h = k).
    { rewrite Forall_forall in Hall.
      apply (Hall (k, h)), in_or_app. right. now left. }
    rewrite Hk, set_fresh.
    + rewrite IH; rewrite <- app_assoc; [reflexivity|]. now split.
    + unfold Py.keys in *. rewrite map_app in Hnodup. cbn in Hnodup.
      apply NoDup_remove_2 in Hnodup. intros Hin. apply Hnodup.
      apply in_or_app. now left.
Qed.

(** The inner loop of lines 38-41 never raises and leaves, under each of
    the workspace's names, the workspace's handle. *)
Lemma merge_one_workspace (w : Workspace.t)
    (d : Py.dict RepositoryLocationHandle) (names : list string) :
  keyed_by_location_name (Workspace.location_handle_dict w) ->
  keyed_by_location_name d ->
  (forall n, In n names -> In n (Py.keys (Workspace.location_handle_dict w))) ->
  exists d',
    for_each
      (fun d repository_location_name =>
         handle <- lift (Workspace.get_repository_location_handle
                           w repository_location_name) ;;
         ret (Py.set d repository_location_name handle))
      d names = ([], Ok d')
    /\ keyed_by_location_name d'
    /\ forall k,
         (In k names ->
          Py.get d' k = Py.get (Workspace.location_handle_dict w) k)
         /\ (~ In k names -> Py.get d' k = Py.get d k).
Proof.
  intros Hw. revert d.
  induction names as [|n names IH]; intros d Hd Hnames; cbn [for_each].
  - exists d. split; [reflexivity|]. split; [assumption|].
    intros k. split; [intros []|reflexivity].
  - destruct (key_get _ n (Hnames n (or_introl eq_refl))) as [h Hh].
    unfold Workspace.get_repository_location_handle at 1. rewrite Hh.
    rewrite bind_lift_Ok. unfold ret at 1.
    change (@pair (list Call) (result (Py.dict RepositoryLocationHandle))
              [] (Ok (Py.set d n h)))
      with (lift (Ok (Py.set d n h))).
    rewrite bind_lift_Ok.
    assert (Hn : location_name h = n).
    { destruct Hw as [_ Hall]. rewrite Forall_forall in Hall.
      exact (Hall (n, h) (get_In _ _ _ Hh)). }
    destruct (IH (Py.set d n h) (set_keyed d h n Hn Hd)
                 (fun m Hm => Hnames m (or_intror Hm)))
      as (d' & Hrun & Hkeyed & Hget).
    exists d'. split; [exact Hrun|]. split; [exact Hkeyed|].
    intros k. destruct (Hget k) as [Hin Hout]. split.
    + intros [<-|Hk]; [|now apply Hin].
      destruct (in_dec string_dec n names) as [Hk|Hk]; [now apply Hin|].
      now rewrite (Hout Hk), get_set_same.
    + intros Hk. cbn [In] in Hk. rewrite Hout by tauto.
      apply get_set_other. tauto.
Qed.

(** The merge never raises; under each name it leaves the handle of the
    last workspace that has the name. *)
Lemma merge_last_workspace_wins (workspaces : list Workspace.t) :
  Forall (fun w => keyed_by_location_name (Workspace.location_handle_dict w))
         workspaces ->
  exists d,
    merge_location_handles workspaces = ([], Ok d)
    /\ keyed_by_location_name d
    /\ forall name, Py.get d name = last_handle name workspaces None.
Proof.
  unfold merge_location_handles, last_handle.
  assert (Hnil : keyed_by_location_name []) by (split; constructor).
  enough (H : forall ws d0,
             keyed_by_location_name d0 ->
             Forall (fun w =>
                       keyed_by_location_name (Workspace.location_handle_dict w))
                    ws ->
             exists d,
               for_each
                 (fun d workspace =>
                    for_each
                      (fun d repository_location_name =>
                         handle <- lift (Workspace.get_repository_location_handle
                                           workspace repository_location_name) ;;
                         ret (Py.set d repository_location_name handle))
                      d (Workspace.repository_location_names workspace))
                 d0 ws = ([], Ok d)
               /\ keyed_by_location_name d
               /\ forall name,
                    Py.get d name
                    = fold_left
                        (fun found workspace =>
                           match Py.get (Workspace.location_handle_dict
                                           workspace) name with
                           | Some handle => Some handle
                           | None => found
                           end)
                        ws (Py.get d0 name)).
  { intros Hws. exact (H workspaces [] Hnil Hws). }
  induction ws as [|w ws IH]; intros d0 Hd0 Hws; cbn [for_each fold_left].
  - exists d0. split; [reflexivity|]. split; [assumption|]. reflexivity.
  - inversion Hws as [|? ? Hw Hrest]; subst.
    destruct (merge_one_workspace w d0
                (Workspace.repository_location_names w) Hw Hd0
                (fun n Hn => Hn))
      as (d1 & Hrun & Hd1 & Hget).
    rewrite Hrun.
    change (@pair (list Call) (result (Py.dict RepositoryLocationHandle))
              [] (Ok d1))
      with (lift (Ok d1)).
    rewrite bind_lift_Ok.
    destruct (IH d1 Hd1 Hrest) as (d & Hrun' & Hd & Hget').
    exists d. split; [exact Hrun'|]. split; [exact Hd|].
    intros name. rewrite Hget'. f_equal.
    destruct (Hget name) as [Hin Hout].
    destruct (Py.get (Workspace.location_handle_dict w) name) as [h|] eqn:E.
    + apply Hin. exact (get_Some_key _ _ _ E).
    + apply Hout. intros Hk.
      destruct (key_get _ _ Hk) as [h Hh].
      unfold Workspace.repository_location_names in Hk. congruence.
Qed.

Lemma comprehension_outcome {A B} (f : A -> M B) (xs : list A) (ys : list B) :
  Forall2 (fun x y => outcome (f x) = Ok y) xs ys ->
  outcome (comprehension f xs) = Ok ys.
Proof.
  induction 1 as [|x y xs ys Hx _ IH]; cbn [comprehension]; [reflexivity|].
  rewrite outcome_bind, Hx, outcome_bind, IH. reflexivity.
Qed.

(** A workspace that a document resolves to holds each handle under its
    own location name. *)
Lemma loaded_workspace_keyed (env : Collaborators) (c : workspace_config)
    (yaml_path : string) (w : Workspace.t) :
  outcome (load_workspace_from_config env c yaml_path) = Ok w ->
  keyed_by_location_name (Workspace.location_handle_dict w).
Proof.
  unfold load_workspace_from_config. rewrite outcome_bind.
  cbn [lift outcome snd].
  destruct (c_ensure_workspace_config env c yaml_path); [|discriminate].
  destruct (repository c).
  - rewrite outcome_bind. cbn [lift outcome snd].
    destruct (c_from_legacy_repository_yaml env yaml_path); [|discriminate].
    rewrite outcome_bind.
    destruct (outcome (create_in_process_location env _)); [|discriminate].
    cbn. intros [= <-]. apply create_keyed.
  - destruct (load_from c); [|discriminate].
    rewrite outcome_bind.
    destruct (outcome (comprehension _ _)); [|discriminate].
    cbn. intros [= <-]. apply create_keyed.
Qed.

(** C5.  Two documents that resolve, each to a workspace with a handle
    named [name]: loading the two paths succeeds, and the merged
    workspace has the handle of the second document under [name]. *)
Theorem second_document_wins
    (env : Collaborators) (first second : string)
    (first_config second_config : workspace_config)
    (first_workspace second_workspace : Workspace.t) (name : string)
    (first_handle second_handle : RepositoryLocationHandle) :
  c_load_yaml_from_path env first = Ok first_config ->
  c_load_yaml_from_path env second = Ok second_config ->
  outcome (load_workspace_from_config env first_config first)
  = Ok first_workspace ->
  outcome (load_workspace_from_config env second_config second)
  = Ok second_workspace ->
  Workspace.get_repository_location_handle first_workspace name
  = Ok first_handle ->
  Workspace.get_repository_location_handle second_workspace name
  = Ok second_handle ->
  exists merged,
    outcome (load_workspace_from_yaml_paths env [first; second]) = Ok merged
    /\ Workspace.get_repository_location_handle merged name = Ok second_handle
    /\ forall other,
         Py.get (Workspace.location_handle_dict merged) other
         = last_handle other [first_workspace; second_workspace] None.
Proof.
  intros Hc1 Hc2 Hw1 Hw2 _ Hh2.
  destruct (merge_last_workspace_wins [first_workspace; second_workspace])
    as (d & Hmerge & Hkeyed & Hget).
  { repeat constructor; eapply loaded_workspace_keyed; eassumption. }
  exists (Workspace.make d). split; [|split].
  - unfold load_workspace_from_yaml_paths.
    rewrite outcome_bind,
      (comprehension_outcome _ [first; second] [first_config; second_config]).
    2:{ repeat constructor; cbn; assumption. }
    rewrite outcome_bind.
    rewrite (comprehension_outcome _ _ [first_workspace; second_workspace]).
    2:{ repeat constructor; cbn; assumption. }
    rewrite outcome_bind, Hmerge. cbn [outcome snd ret].
    now rewrite create_of_values.
  - unfold Workspace.get_repository_location_handle in *.
    cbn [Workspace.location_handle_dict]. rewrite Hget.
    unfold last_handle. cbn [fold_left].
    destruct (Py.get (Workspace.location_handle_dict second_workspace) name);
      [assumption|discriminate Hh2].
  - intros other. apply Hget.
Qed.

Lemma second_document_wins_witness :
  exists merged,
    outcome (load_workspace_from_yaml_paths site
               ["/ws/first.yaml"; "/ws/second.yaml"]) = Ok merged
    /\ Workspace.get_repository_location_handle merged "A"
       = Ok (create_grpc_server_location (Some 5000%Z) None "localhost" "A").
Proof.
  destruct (second_document_wins site "/ws/first.yaml" "/ws/second.yaml"
              first_document second_document
              (Workspace.create
                 [create_grpc_server_location (Some 4000%Z) None "localhost" "A";
                  create_grpc_server_location (Some 4001%Z) None "localhost" "B"])
              (Workspace.create
                 [create_grpc_server_location (Some 5000%Z) None "localhost" "A"])
              "A"
              (create_grpc_server_location (Some 4000%Z) None "localhost" "A")
              (create_grpc_server_location (Some 5000%Z) None "localhost" "A")
              eq_refl eq_refl eq_refl eq_refl eq_refl eq_refl)
    as (merged & Hloaded & Hhandle & _).
  exists merged. split; [exact Hloaded | exact Hhandle].
Defined.

(** ** Naming and mapping of bare entries *)

(** What a bare entry resolves to, with or without an attribute. *)
Lemma bare_entry_resolution (env : Collaborators) (t : Target)
    (yaml_path : string) (opt_ins : list string) :
  is_target_config (target_dict t) = true ->
  outcome (_location_handle_from_location_config env (bare_entry t) yaml_path
             opt_ins)
  = match loaded_targets env t yaml_path with
    | Ok ts =>
        let d := pointers_by_repository_name (target_pointer t yaml_path) ts in
        match assign_location_name (target_location_name t) d with
        | Ok name =>
            Ok (create_out_of_process_location d name
                  (forwarded_api t (api_of_opt_ins opt_ins)))
        | Raise e => Raise e
        end
    | Raise e => Raise e
    end.
Proof.
  intros Htarget. unfold loaded_targets.
  destruct (Py.nonempty (target_attribute t)) as [a|] eqn:Hattr.
  - rewrite (bare_entry_loads env t yaml_path opt_ins a Hattr).
    cbn [outcome snd].
    destruct (c_def_from_pointer _ _); [|reflexivity].
    now rewrite pointers_by_repository_name_one.
  - now rewrite (bare_entry_discovers env t yaml_path opt_ins Htarget Hattr).
Qed.

Lemma find_snoc {A} (p : A -> bool) (xs : list A) (x : A) :
  find p (xs ++ [x])
  = match find p xs with
    | Some y => Some y
    | None => if p x then Some x else None
    end.
Proof.
  induction xs as [|y xs IH]; cbn; [reflexivity|].
  now destruct (p y).
Qed.

Section Lookups.
Context {A V : Type} (key : A -> string) (value : A -> V).

(** Lookup after a run of assignments: the value of the last assignment
    to the key, the earlier content where there is none. *)
Lemma assigned_get (xs : list A) (d : Py.dict V) (k : string) :
  Py.get (fold_left (fun d x => Py.set d (key x) (value x)) xs d) k
  = match find (fun x => String.eqb (key x) k) (rev xs) with
    | Some x => Some (value x)
    | None => Py.get d k
    end.
Proof.
  revert d. induction xs as [|x xs IH]; intros d; [reflexivity|].
  cbn [fold_left rev]. rewrite IH, find_snoc.
  destruct (find _ (rev xs)); [reflexivity|].
  destruct (String.eqb_spec (key x) k) as [<-|Hne].
  - apply get_set_same.
  - now apply get_set_other.
Qed.

Lemma assigned_one_key (xs : list A) (k : string) :
  xs <> [] -> (forall x, In x xs -> key x = k) ->
  Py.keys (fold_left (fun d x => Py.set d (key x) (value x)) xs []) = [k].
Proof.
  intros Hne Hall.
  destruct xs as [|x xs]; [congruence|]. clear Hne. cbn [fold_left Py.set].
  rewrite (Hall x (or_introl eq_refl)).
  assert (Hrest : forall y, In y xs -> key y = k)
    by (intros y Hy; apply Hall; now right).
  clear Hall. generalize (value x) as v. revert Hrest.
  induction xs as [|y xs IH]; intros Hrest v; [reflexivity|].
  cbn [fold_left Py.set]. rewrite (Hrest y (or_introl eq_refl)), String.eqb_refl.
  apply IH. intros z Hz. apply Hrest. now right.
Qed.

End Lookups.

Lemma get_by_repository_name (pointer : string -> CodePointer)
    (ts : list LoadableTarget.t) (k : string) :
  Py.get (pointers_by_repository_name pointer ts) k
  = option_map (fun x => pointer (LoadableTarget.attribute x))
               (last_target_named k ts).
Proof.
  unfold pointers_by_repository_name, last_target_named.
  rewrite assigned_get. now destruct (find _ (rev ts)).
Qed.

(** A mapping for which the naming gives a name without being told one
    has that name as its only key. *)
Lemma assign_location_name_default (l : option string)
    (d : Py.dict CodePointer) (name : string) :
  Py.truthy l = false -> assign_location_name l d = Ok name ->
  Py.keys d = [name].
Proof.
  intros Hl. unfold assign_location_name. rewrite (nonempty_falsy l Hl).
  destruct d as [|[k p] [|kp d]]; cbn; try discriminate.
  now intros [= ->].
Qed.

(** X1.  A bare entry with a location name resolves whatever number of
    repositories is loaded, several or none included: the handle has the
    configured name and its mapping is keyed by the names loaded. *)
Theorem explicit_location_name_is_kept
    (env : Collaborators) (t : Target) (yaml_path : string)
    (opt_ins : list string) (name : string) (ts : list LoadableTarget.t) :
  is_target_config (target_dict t) = true ->
  Py.nonempty (target_location_name t) = Some name ->
  loaded_targets env t yaml_path = Ok ts ->
  exists h,
    outcome (_location_handle_from_location_config env (bare_entry t)
               yaml_path opt_ins) = Ok h
    /\ location_name h = name
    /\ forall k,
         In k (Py.keys (repository_code_pointer_dict h))
         <-> In k (map snd (found_locally ts)).
Proof.
  intros Htarget Hname Hts.
  rewrite (bare_entry_resolution env t yaml_path opt_ins Htarget), Hts.
  cbn zeta. unfold assign_location_name. rewrite Hname.
  eexists. split; [reflexivity|]. split; [reflexivity|].
  intros k. apply keys_by_repository_name.
Qed.

Lemma explicit_location_name_is_kept_witness :
  exists h,
    outcome (_location_handle_from_location_config site
               (bare_entry (PythonModule (ModuleDict "pkg.multi" None
                                            (Some "both"))))
               "/ws/dev.yaml" []) = Ok h
    /\ location_name h = "both"
    /\ forall k,
         In k (Py.keys (repository_code_pointer_dict h))
         <-> In k ["prod"; "staging"].
Proof.
  exact (explicit_location_name_is_kept site
           (PythonModule (ModuleDict "pkg.multi" None (Some "both")))
           "/ws/dev.yaml" [] "both"
           [repo "define_repo" "prod"; repo "define_staging" "staging"]
           eq_refl eq_refl eq_refl).
Defined.

(** X3.  The location name of a bare entry that has none configured.
    When the entry resolves, its mapping has exactly one key and that
    key is the location name; and it does resolve, to the name [n],
    when at least one repository is loaded and all report the name
    [n]. *)
Theorem default_location_name_is_the_only_key
    (env : Collaborators) (t : Target) (yaml_path : string)
    (opt_ins : list string) :
  is_target_config (target_dict t) = true ->
  Py.truthy (target_location_name t) = false ->
  let resolved :=
    outcome (_location_handle_from_location_config env (bare_entry t)
               yaml_path opt_ins) in
  (forall h,
     resolved = Ok h ->
     Py.keys (repository_code_pointer_dict h) = [location_name h])
  /\ (forall ts n,
        loaded_targets env t yaml_path = Ok ts ->
        ts <> [] ->
        (forall x, In x ts ->
           RepositoryDefinition.name (LoadableTarget.target_definition x) = n) ->
        exists h, resolved = Ok h /\ location_name h = n).
Proof.
  intros Htarget Hname resolved. subst resolved.
  rewrite (bare_entry_resolution env t yaml_path opt_ins Htarget). split.
  - intros h.
    destruct (loaded_targets env t yaml_path) as [ts|]; [|discriminate].
    cbn zeta.
    destruct (assign_location_name _ _) as [name|] eqn:Hassign;
      [|discriminate].
    intros [= <-]. unfold create_out_of_process_location.
    cbn [repository_code_pointer_dict payload location_name].
    exact (assign_location_name_default _ _ _ Hname Hassign).
  - intros ts n -> Hne Hall. cbn zeta.
    assert (Hkeys : Py.keys (pointers_by_repository_name
                               (target_pointer t yaml_path) ts) = [n]).
    { unfold pointers_by_repository_name.
      now apply (assigned_one_key
                   (fun x => RepositoryDefinition.name
                               (LoadableTarget.target_definition x))). }
    unfold assign_location_name. rewrite (nonempty_falsy _ Hname).
    destruct (pointers_by_repository_name (target_pointer t yaml_path) ts)
      as [|[k p] [|kp d]]; cbn in Hkeys |- *; try discriminate Hkeys.
    injection Hkeys as ->. eexists. split; reflexivity.
Qed.

Lemma default_location_name_is_the_only_key_witness :
  exists h,
    outcome (_location_handle_from_location_config site
               (bare_entry (PythonFile (FileStr "repo.py")))
               "/ws/dev.yaml" []) = Ok h
    /\ location_name h = "prod"
    /\ Py.keys (repository_code_pointer_dict h) = ["prod"].
Proof.
  pose proof (default_location_name_is_the_only_key site
                (PythonFile (FileStr "repo.py")) "/ws/dev.yaml" []
                eq_refl eq_refl) as [Hkeys Hresolves].
  destruct (Hresolves [repo "define_repo" "prod"] "prod" eq_refl)
    as (h & Hh & Hn).
  - discriminate.
  - intros x [<-|[]]. reflexivity.
  - exists h. split; [exact Hh|]. split; [exact Hn|].
    rewrite (Hkeys h Hh). now rewrite Hn.
Defined.

(** X4.  Lookup in the mapping of a resolved bare entry: under a name,
    the pointer to the attribute of the last loaded target that reports
    the name; a later target replaces an earlier one of the same name,
    and a name that no target reports is absent. *)
Theorem later_target_replaces_pointer_of_same_name
    (env : Collaborators) (t : Target) (yaml_path : string)
    (opt_ins : list string) (ts : list LoadableTarget.t)
    (h : RepositoryLocationHandle) :
  is_target_config (target_dict t) = true ->
  loaded_targets env t yaml_path = Ok ts ->
  outcome (_location_handle_from_location_config env (bare_entry t) yaml_path
             opt_ins) = Ok h ->
  forall k,
    Py.get (repository_code_pointer_dict h) k
    = option_map
        (fun x => target_pointer t yaml_path (LoadableTarget.attribute x))
        (last_target_named k ts).
Proof.
  intros Htarget Hts.
  rewrite (bare_entry_resolution env t yaml_path opt_ins Htarget), Hts.
  cbn zeta. destruct (assign_location_name _ _); [|discriminate].
  intros [= <-] k. unfold create_out_of_process_location.
  cbn [repository_code_pointer_dict payload].
  apply get_by_repository_name.
Qed.

Lemma later_target_replaces_pointer_of_same_name_witness :
  exists h,
    outcome (_location_handle_from_location_config
               (site_hosting [("first", "prod"); ("second", "prod")])
               (bare_entry (PythonModule (ModuleStr "pkg.repo")))
               "/ws/dev.yaml" []) = Ok h
    /\ Py.get (repository_code_pointer_dict h) "prod"
       = Some (from_module "pkg.repo" "second")
    /\ Py.get (repository_code_pointer_dict h) "staging" = None.
Proof.
  eexists. split; [reflexivity|].
  pose proof (later_target_replaces_pointer_of_same_name
                (site_hosting [("first", "prod"); ("second", "prod")])
                (PythonModule (ModuleStr "pkg.repo")) "/ws/dev.yaml" []
                [repo "first" "prod"; repo "second" "prod"] _
                eq_refl eq_refl eq_refl) as Hget.
  split; [exact (Hget "prod") | exact (Hget "staging")].
Defined.

(** ** How an entry is read *)

(** X5.  An entry whose target is the empty shorthand string is not a
    target: as a bare entry it is an unsupported location config, inside
    python_environment it fails the target check; either way a check
    error is raised and no collaborator is called. *)
Theorem empty_target_is_no_target
    (env : Collaborators) (exe : string) (t : Target) (yaml_path : string)
    (opt_ins : list string) :
  is_target_config (target_dict t) = false ->
  (exists description,
     _location_handle_from_location_config env (bare_entry t) yaml_path opt_ins
     = ([], Raise (CheckError description)))
  /\ (exists description,
        _location_handle_from_location_config env
          (python_environment_entry exe t) yaml_path opt_ins
        = ([], Raise (CheckError description))).
Proof.
  intros Htarget. split; eexists.
  - unfold _location_handle_from_location_config, bare_entry.
    cbn [target_keys grpc_server python_environment].
    rewrite Htarget. reflexivity.
  - unfold _location_handle_from_location_config, python_environment_entry,
      _location_handle_from_python_environment_config.
    cbn [target_keys grpc_server python_environment target executable_path].
    rewrite Htarget. reflexivity.
Qed.

Lemma empty_target_is_no_target_witness :
  (exists description,
     _location_handle_from_location_config site
       (bare_entry (PythonFile (FileStr ""))) "/ws/dev.yaml" []
     = ([], Raise (CheckError description)))
  /\ (exists description,
        _location_handle_from_location_config site
          (python_environment_entry "/venv/bin/python"
             (PythonFile (FileStr ""))) "/ws/dev.yaml" []
        = ([], Raise (CheckError description))).
Proof.
  exact (empty_target_is_no_target site "/venv/bin/python"
           (PythonFile (FileStr "")) "/ws/dev.yaml" [] eq_refl).
Defined.

(** X6.  A shorthand string that is not empty reads as the dict that has
    the string under its required key and nothing else: the bare entry
    and the python_environment entry resolve alike in both forms, calls
    included. *)
Theorem shorthand_reads_as_dict
    (env : Collaborators) (exe : string) (t : Target) (yaml_path : string)
    (opt_ins : list string) :
  is_target_config (target_dict t) = true ->
  _location_handle_from_location_config env (bare_entry t) yaml_path opt_ins
  = _location_handle_from_location_config env (bare_entry (longhand t))
      yaml_path opt_ins
  /\ _location_handle_from_location_config env (python_environment_entry exe t)
       yaml_path opt_ins
     = _location_handle_from_location_config env
         (python_environment_entry exe (longhand t)) yaml_path opt_ins.
Proof.
  intros Htarget.
  destruct t as [[s|p a l w]|[s|m a l]|[s|p a l]];
    try (split; reflexivity);
    destruct s; try discriminate Htarget; split; reflexivity.
Qed.

Lemma shorthand_reads_as_dict_witness :
  _location_handle_from_location_config site
    (bare_entry (PythonFile (FileStr "repo.py"))) "/ws/dev.yaml" []
  = _location_handle_from_location_config site
      (bare_entry (PythonFile (FileDict "repo.py" None None None)))
      "/ws/dev.yaml" [].
Proof.
  exact (proj1 (shorthand_reads_as_dict site "/venv/bin/python"
                  (PythonFile (FileStr "repo.py")) "/ws/dev.yaml" [] eq_refl)).
Defined.

(** X7.  In a bare entry an empty attribute, location name or working
    directory reads as an absent one. *)
Theorem empty_strings_read_as_unset
    (env : Collaborators) (t : Target) (yaml_path : string)
    (opt_ins : list string) :
  _location_handle_from_location_config env (bare_entry t) yaml_path opt_ins
  = _location_handle_from_location_config env (bare_entry (unset_blanks t))
      yaml_path opt_ins.
Proof.
  destruct t as [[s|p a l w]|[s|m a l]|[s|p a l]]; try reflexivity.
  - destruct a as [[|? ?]|], l as [[|? ?]|], w as [[|? ?]|]; reflexivity.
  - destruct a as [[|? ?]|], l as [[|? ?]|]; reflexivity.
  - destruct a as [[|? ?]|], l as [[|? ?]|]; reflexivity.
Qed.

Lemma grpc_opted_in_In (opt_ins : list string) :
  grpc_opted_in opt_ins = true <-> In "grpc" opt_ins.
Proof.
  unfold grpc_opted_in. rewrite existsb_exists. split.
  - intros (flag & Hin & Heq). apply String.eqb_eq in Heq. now subst.
  - intros Hin. exists "grpc". now split.
Qed.

(** X8.  The opt-ins of a document matter to an entry only through the
    presence of "grpc": two lists that agree on it, whatever their other
    flags, order and repetitions, give the same resolution. *)
Theorem only_the_grpc_opt_in_is_read
    (env : Collaborators) (entry : location_config) (yaml_path : string)
    (opt_ins opt_ins' : list string) :
  (In "grpc" opt_ins <-> In "grpc" opt_ins') ->
  _location_handle_from_location_config env entry yaml_path opt_ins
  = _location_handle_from_location_config env entry yaml_path opt_ins'.
Proof.
  intros Hsame.
  assert (Hapi : api_of_opt_ins opt_ins = api_of_opt_ins opt_ins').
  { unfold api_of_opt_ins.
    destruct (grpc_opted_in opt_ins) eqn:E, (grpc_opted_in opt_ins') eqn:E';
      try reflexivity.
    - apply grpc_opted_in_In, Hsame, grpc_opted_in_In in E. congruence.
    - apply grpc_opted_in_In, Hsame, grpc_opted_in_In in E'. congruence. }
  unfold _location_handle_from_location_config. now rewrite Hapi.
Qed.

Lemma only_the_grpc_opt_in_is_read_witness :
  _location_handle_from_location_config site
    (python_environment_entry "/venv/bin/python"
       (PythonModule (ModuleStr "pkg.repo")))
    "/ws/dev.yaml" ["other"; "grpc"; "grpc"]
  = _location_handle_from_location_config site
      (python_environment_entry "/venv/bin/python"
         (PythonModule (ModuleStr "pkg.repo")))
      "/ws/dev.yaml" ["grpc"].
Proof.
  apply (only_the_grpc_opt_in_is_read site
           (python_environment_entry "/venv/bin/python"
              (PythonModule (ModuleStr "pkg.repo")))
           "/ws/dev.yaml" ["other"; "grpc"; "grpc"] ["grpc"]).
  split; intros _; cbn; tauto.
Defined.

(** ** grpc_server entries, continued *)

(** X9.  The only way a grpc_server entry fails is the check on port and
    socket: when its resolution raises, port and socket are both set or
    both unset and the error is that check's; the check inside
    [_assign_grpc_location_name] never fails there. *)
Theorem grpc_server_fails_only_on_port_and_socket
    (env : Collaborators) (cfg : grpc_server_config) (yaml_path : string)
    (opt_ins : list string) (e : error) :
  outcome (_location_handle_from_location_config env (grpc_server_entry cfg)
             yaml_path opt_ins) = Raise e ->
  e = CheckError "must supply either a socket or a port"
  /\ port_set cfg = socket_set cfg.
Proof.
  rewrite grpc_entry_resolution. unfold outcome, port_set, socket_set.
  cbn [snd].
  unfold _location_handle_from_grpc_server_config, _assign_grpc_location_name.
  destruct cfg as [p s h l]. cbn [port socket host grpc_location_name].
  destruct (Py.truthy_int p), (Py.truthy s); cbn [negb andb orb];
    try (intros [= <-]; now split);
    destruct (Py.nonempty l); discriminate.
Qed.

Lemma grpc_server_fails_only_on_port_and_socket_witness :
  CheckError "must supply either a socket or a port"
  = CheckError "must supply either a socket or a port"
  /\ port_set {| port := Some 0%Z; socket := Some "";
                 host := None; grpc_location_name := Some "A" |}
     = socket_set {| port := Some 0%Z; socket := Some "";
                     host := None; grpc_location_name := Some "A" |}.
Proof.
  exact (grpc_server_fails_only_on_port_and_socket site
           {| port := Some 0%Z; socket := Some "";
              host := None; grpc_location_name := Some "A" |}
           "/ws/dev.yaml" [] _ eq_refl).
Defined.

(** X10.  A grpc_server entry with exactly one of port and socket set
    resolves without calling any collaborator, whatever the document path
    and the opt-ins: the handle holds port and socket as configured and
    the host, localhost when none is configured, and a configured
    location name is kept as it is. *)
Theorem grpc_server_entry_is_taken_as_configured
    (env : Collaborators) (cfg : grpc_server_config) (yaml_path : string)
    (opt_ins : list string) :
  port_set cfg = negb (socket_set cfg) ->
  exists name,
    _location_handle_from_location_config env (grpc_server_entry cfg)
      yaml_path opt_ins
    = ([], Ok (create_grpc_server_location (port cfg) (socket cfg)
                 (host_or_localhost cfg) name))
    /\ forall configured,
         Py.nonempty (grpc_location_name cfg) = Some configured ->
         name = configured.
Proof.
  intros Hone. rewrite grpc_entry_resolution.
  unfold port_set, socket_set in Hone.
  unfold _location_handle_from_grpc_server_config, _assign_grpc_location_name,
    host_or_localhost.
  destruct cfg as [p s h l]. cbn [port socket host grpc_location_name] in *.
  rewrite Hone.
  destruct (Py.truthy s); cbn [negb andb orb];
    destruct (Py.nonempty l) as [n|];
    eexists; (split; [reflexivity|]); intros c Hc;
    first [now injection Hc | discriminate Hc].
Qed.

Lemma grpc_server_entry_is_taken_as_configured_witness :
  exists name,
    _location_handle_from_location_config site
      (named_grpc_server "A" 4000) "/ws/dev.yaml" ["grpc"]
    = ([], Ok (create_grpc_server_location (Some 4000%Z) None "localhost" name))
    /\ forall configured, Some "A" = Some configured -> name = configured.
Proof.
  exact (grpc_server_entry_is_taken_as_configured site
           {| port := Some 4000%Z; socket := None; host := None;
              grpc_location_name := Some "A" |}
           "/ws/dev.yaml" ["grpc"] eq_refl).
Defined.

(** ** Calls of the collaborators *)

Lemma trace_call {A} (c : Call) (r : result A) : trace (call c r) = [c].
Proof. reflexivity. Qed.

Lemma trace_lift {A} (r : result A) : trace (lift r) = [].
Proof. reflexivity. Qed.

Lemma trace_ret {A} (a : A) : trace (ret a) = [].
Proof. reflexivity. Qed.

Lemma outcome_call {A} (c : Call) (r : result A) : outcome (call c r) = r.
Proof. reflexivity. Qed.

Lemma outcome_lift {A} (r : result A) : outcome (lift r) = r.
Proof. reflexivity. Qed.

Lemma outcome_ret {A} (a : A) : outcome (ret a) = Ok a.
Proof. reflexivity. Qed.

(** Splits a goal about the trace of a resolver term along the term. *)
Ltac trace_cases :=
  repeat first
    [ rewrite trace_bind
    | rewrite outcome_bind
    | rewrite trace_call
    | rewrite trace_lift
    | rewrite trace_ret
    | rewrite outcome_call
    | rewrite outcome_lift
    | rewrite outcome_ret
    | match goal with
      | |- context [match ?x with _ => _ end] =>
          destruct x; cbn -[bind trace outcome call lift ret]
      | |- context [if ?x then _ else _] =>
          destruct x; cbn -[bind trace outcome call lift ret]
      end ].

(** Resolving one entry, of any shape, calls a collaborator once at
    most. *)
Lemma entry_calls_at_most_once (env : Collaborators) (entry : location_config)
    (yaml_path : string) (opt_ins : list string) :
  length (trace (_location_handle_from_location_config env entry yaml_path
                   opt_ins)) <= 1.
Proof.
  unfold_resolver.
  destruct entry as [[f m p] g pe]; cbn [target_keys grpc_server
    python_environment python_file python_module python_package].
  trace_cases; cbn [length app]; lia.
Qed.

Lemma comprehension_trace_bound {A B} (f : A -> M B) (xs : list A) :
  (forall x, length (trace (f x)) <= 1) ->
  length (trace (comprehension f xs)) <= length xs.
Proof.
  intros Hf. induction xs as [|x xs IH]; cbn [comprehension length].
  - rewrite trace_ret. cbn. lia.
  - rewrite trace_bind. specialize (Hf x).
    destruct (outcome (f x)); [|lia].
    rewrite trace_bind, length_app.
    destruct (outcome (comprehension f xs));
      rewrite ?trace_ret, ?length_app; cbn [length]; lia.
Qed.

(** X11.  Resolving an entry of load_from, of any shape, calls a
    collaborator once at most, and so resolving a document in the
    workspace format makes no more calls than it has entries. *)
Theorem at_most_one_call_per_entry
    (env : Collaborators) (opt_in : option (list string))
    (entries : list location_config) (yaml_path : string) :
  (forall entry opt_ins,
     length (trace (_location_handle_from_location_config env entry yaml_path
                      opt_ins)) <= 1)
  /\ length (trace (load_workspace_from_config env
                      (workspace_document opt_in entries) yaml_path))
     <= length entries.
Proof.
  split; [intros entry opt_ins; apply entry_calls_at_most_once|].
  unfold load_workspace_from_config, workspace_document.
  cbn [repository load_from].
  rewrite trace_bind, trace_lift, outcome_lift.
  destruct (c_ensure_workspace_config _ _ _); cbn [length app]; [|lia].
  rewrite trace_bind.
  destruct (outcome (comprehension _ _));
    rewrite ?trace_ret, ?app_nil_r;
    apply comprehension_trace_bound; intros entry;
    apply entry_calls_at_most_once.
Qed.

(** X12.  An error of a collaborator is the error of the entry, raised
    after that one call: of the target loader or of the pointer loader
    for a bare entry, of the remote lister for a python_environment
    entry. *)
Theorem collaborator_errors_pass_through
    (env : Collaborators) (exe : string) (t : Target) (yaml_path : string)
    (opt_ins : list string) (e : error) :
  is_target_config (target_dict t) = true ->
  (Py.truthy (target_attribute t) = false ->
   local_answer env t yaml_path = Raise e ->
   _location_handle_from_location_config env (bare_entry t) yaml_path opt_ins
   = ([local_call t yaml_path], Raise e))
  /\ (forall a,
        Py.nonempty (target_attribute t) = Some a ->
        c_def_from_pointer env (target_pointer t yaml_path a) = Raise e ->
        _location_handle_from_location_config env (bare_entry t) yaml_path
          opt_ins
        = ([DefFromPointer (target_pointer t yaml_path a)], Raise e))
  /\ (Py.truthy (target_attribute t) = false ->
      remote_answer env (api_of_opt_ins opt_ins)
        (remote_args (c_expanduser env exe) t yaml_path) = Raise e ->
      _location_handle_from_location_config env
        (python_environment_entry exe t) yaml_path opt_ins
      = ([remote_call (api_of_opt_ins opt_ins)
            (remote_args (c_expanduser env exe) t yaml_path)], Raise e)).
Proof.
  intros Htarget. split; [|split].
  - intros Hattr Hraise. apply nonempty_falsy in Hattr.
    now rewrite (bare_entry_discovers env t yaml_path opt_ins Htarget Hattr),
      Hraise.
  - intros a Hattr Hraise.
    now rewrite (bare_entry_loads env t yaml_path opt_ins a Hattr), Hraise.
  - intros Hattr Hraise. apply nonempty_falsy in Hattr.
    rewrite (environment_entry_discovers env exe t yaml_path opt_ins Htarget
               Hattr).
    cbv zeta. now rewrite Hraise.
Qed.

Lemma collaborator_errors_pass_through_witness :
  _location_handle_from_location_config (site_without "pkg.gone")
    (bare_entry (PythonPackage (PackageStr "pkg.gone"))) "/ws/dev.yaml" []
  = ([LoadableTargetsFromPythonPackage "pkg.gone"],
     Raise (External "no such package")).
Proof.
  exact (proj1 (collaborator_errors_pass_through (site_without "pkg.gone")
                  "/venv/bin/python" (PythonPackage (PackageStr "pkg.gone"))
                  "/ws/dev.yaml" [] (External "no such package") eq_refl)
               eq_refl eq_refl).
Defined.

Lemma built_by_repository_name (pointer : string -> CodePointer)
    (ts : list LoadableTarget.t) :
  pointers_built_by pointer (pointers_by_repository_name pointer ts).
Proof.
  unfold pointers_built_by, pointers_by_repository_name. intros k p Hin.
  pose proof (assigned_entries
                (fun x => RepositoryDefinition.name
                            (LoadableTarget.target_definition x))
                (fun x => pointer (LoadableTarget.attribute x))
                (fun kv => exists a, snd kv = pointer a) ts [])
    as Hall.
  specialize (Hall (fun x _ => ex_intro _ _ eq_refl) (Forall_nil _)).
  rewrite Forall_forall in Hall. exact (Hall (k, p) Hin).
Qed.

(** X13.  A bare python_file entry with a working directory and no
    attribute: the target loader is asked with the rebased file and the
    rebased working directory, and every pointer of the resulting handle
    is to that file with that working directory. *)
Theorem bare_file_discovery_passes_working_directory
    (env : Collaborators) (p : string) (a l w : option string)
    (wd yaml_path : string) (opt_ins : list string) :
  Py.truthy a = false ->
  Py.nonempty w = Some wd ->
  let run :=
    _location_handle_from_location_config env
      (bare_entry (PythonFile (FileDict p a l w))) yaml_path opt_ins in
  trace run
  = [LoadableTargetsFromPythonFile (rebase_file p yaml_path)
       (Some (rebase_file wd yaml_path))]
  /\ forall h,
       outcome run = Ok h ->
       pointers_built_by
         (fun attribute =>
            from_python_file (rebase_file p yaml_path) attribute
              (Some (rebase_file wd yaml_path)))
         (repository_code_pointer_dict h).
Proof.
  intros Hattr Hwd run. subst run.
  rewrite (bare_entry_discovers env (PythonFile (FileDict p a l w)) yaml_path
             opt_ins eq_refl (nonempty_falsy a Hattr)).
  unfold local_call, local_answer, target_pointer. rewrite Hwd.
  cbn [trace outcome fst snd]. split; [reflexivity|].
  intros h.
  destruct (c_loadable_targets_from_python_file _ _ _) as [ts|];
    [|discriminate].
  cbv zeta. destruct (assign_location_name _ _); [|discriminate].
  intros [= <-]. unfold create_out_of_process_location.
  cbn [repository_code_pointer_dict payload].
  apply built_by_repository_name.
Qed.

Lemma bare_file_discovery_passes_working_directory_witness :
  trace (_location_handle_from_location_config site
           (bare_entry (PythonFile (FileDict "repo.py" None None (Some "code"))))
           "/ws/dev.yaml" [])
  = [LoadableTargetsFromPythonFile "/ws/repo.py" (Some "/ws/code")].
Proof.
  exact (proj1 (bare_file_discovery_passes_working_directory site "repo.py"
                  None None (Some "code") "code" "/ws/dev.yaml" []
                  eq_refl eq_refl)).
Defined.

(** X14.  A python_environment entry without attribute that names a
    package asks the remote lister what the entry naming the module of
    the same name asks: the name goes in the module_name argument, with
    no file and no working directory.  The pointers of the resulting
    handle are package pointers, each to the attribute it is keyed by. *)
Theorem package_is_listed_as_module
    (env : Collaborators) (exe : string) (c : python_package_config)
    (yaml_path : string) (opt_ins : list string) :
  is_target_config (target_dict (PythonPackage c)) = true ->
  Py.truthy (target_attribute (PythonPackage c)) = false ->
  let run t :=
    _location_handle_from_location_config env (python_environment_entry exe t)
      yaml_path opt_ins in
  trace (run (PythonPackage c))
  = [remote_call (api_of_opt_ins opt_ins)
       (ListRepositoriesArgs.make (c_expanduser env exe) None
          (Some (package_name_of c)) None)]
  /\ trace (run (PythonPackage c)) = trace (run (PythonModule (as_module c)))
  /\ forall h k pointer,
       outcome (run (PythonPackage c)) = Ok h ->
       In (k, pointer) (repository_code_pointer_dict h) ->
       pointer = from_python_package (package_name_of c) k.
Proof.
  intros Htarget Hattr run. subst run. cbv beta.
  assert (Hmodule : is_target_config (target_dict (PythonModule (as_module c)))
                    = true)
    by (destruct c; unfold is_target_config in Htarget |- *;
        cbn in Htarget |- *; rewrite ?orb_false_r;
        first [assumption | reflexivity]).
  assert (Hattr' : Py.nonempty (target_attribute (PythonModule (as_module c)))
                   = None)
    by (apply nonempty_falsy; destruct c; exact Hattr).
  apply nonempty_falsy in Hattr.
  rewrite (environment_entry_discovers env exe (PythonPackage c) yaml_path
             opt_ins Htarget Hattr).
  rewrite (environment_entry_discovers env exe (PythonModule (as_module c))
             yaml_path opt_ins Hmodule Hattr').
  cbn [trace outcome fst snd].
  assert (Hargs : remote_args (c_expanduser env exe) (PythonPackage c) yaml_path
                  = ListRepositoriesArgs.make (c_expanduser env exe) None
                      (Some (package_name_of c)) None)
    by (now destruct c).
  assert (Hargs' : remote_args (c_expanduser env exe)
                     (PythonModule (as_module c)) yaml_path
                   = ListRepositoriesArgs.make (c_expanduser env exe) None
                       (Some (package_name_of c)) None)
    by (now destruct c).
  rewrite Hargs, Hargs'. split; [reflexivity|]. split; [reflexivity|].
  intros h k pointer.
  destruct (remote_answer _ _ _) as [response|]; [|discriminate].
  unfold create_python_env_location.
  destruct (assign_location_name _ _); [|discriminate].
  intros [= <-]. cbn [repository_code_pointer_dict payload]. intros Hin.
  apply entries_by_attribute in Hin. rewrite Hin. now destruct c.
Qed.

Lemma package_is_listed_as_module_witness :
  trace (_location_handle_from_location_config site
           (python_environment_entry "/venv/bin/python"
              (PythonPackage (PackageStr "pkg")))
           "/ws/dev.yaml" [])
  = [SyncListRepositories
       (ListRepositoriesArgs.make "/venv/bin/python" None (Some "pkg") None)].
Proof.
  exact (proj1 (package_is_listed_as_module site "/venv/bin/python"
                  (PackageStr "pkg") "/ws/dev.yaml" [] eq_refl eq_refl)).
Defined.

(** ** Documents that fail *)

(** A comprehension stops at the first element that raises: the calls
    made are those of the elements before it and its own. *)
Lemma comprehension_stops {A B} (f : A -> M B) (before after : list A)
    (bad : A) (ys : list B) (e : error) :
  Forall2 (fun x y => outcome (f x) = Ok y) before ys ->
  outcome (f bad) = Raise e ->
  comprehension f (before ++ bad :: after)
  = (concat (map (fun x => trace (f x)) before) ++ trace (f bad), Raise e).
Proof.
  intros Hbefore Hbad.
  induction Hbefore as [|x y before ys Hx _ IH]; cbn [app comprehension map concat].
  - destruct (f bad) as [t r]. cbn in Hbad |- *. now subst r.
  - rewrite IH. destruct (f x) as [t r]. cbn in Hx |- *. subst r.
    now rewrite app_assoc.
Qed.

Lemma comprehension_lift_trace {A B} (g : A -> result B) (xs : list A) :
  trace (comprehension (fun x => lift (g x)) xs) = [].
Proof.
  induction xs as [|x xs IH]; cbn [comprehension]; [reflexivity|].
  rewrite trace_bind, trace_lift, outcome_lift.
  destruct (g x); [|reflexivity].
  rewrite trace_bind, IH.
  now destruct (outcome (comprehension _ xs)).
Qed.

(** X15.  A document in the workspace format stops at its first entry
    that fails: the error of that entry is the error of the document,
    and the calls made are those of the entries before it and its own;
    no entry after it is resolved. *)
Theorem first_failing_entry_stops_the_document
    (env : Collaborators) (flags : option (list string))
    (before after : list location_config) (bad : location_config)
    (handles : list RepositoryLocationHandle) (yaml_path : string)
    (e : error) :
  let resolve entry :=
    _location_handle_from_location_config env entry yaml_path
      (opt_ins_of flags) in
  c_ensure_workspace_config env
    (workspace_document flags (before ++ bad :: after)) yaml_path = Ok tt ->
  Forall2 (fun entry h => outcome (resolve entry) = Ok h) before handles ->
  outcome (resolve bad) = Raise e ->
  load_workspace_from_config env
    (workspace_document flags (before ++ bad :: after)) yaml_path
  = (concat (map (fun entry => trace (resolve entry)) before)
       ++ trace (resolve bad),
     Raise e).
Proof.
  intros resolve Hensure Hbefore Hbad.
  unfold load_workspace_from_config. rewrite Hensure, bind_lift_Ok.
  unfold workspace_document. cbn [repository load_from opt_in].
  change (comprehension _ (before ++ bad :: after))
    with (comprehension resolve (before ++ bad :: after)).
  now rewrite (comprehension_stops resolve before after bad handles e
                 Hbefore Hbad).
Qed.

Lemma first_failing_entry_stops_the_document_witness :
  load_workspace_from_config (site_without "pkg.gone")
    (workspace_document None
       ([bare_entry (PythonModule (ModuleStr "pkg.repo"))]
          ++ bare_entry (PythonPackage (PackageStr "pkg.gone"))
          :: [bare_entry (PythonFile (FileStr "repo.py"))]))
    "/ws/dev.yaml"
  = ([LoadableTargetsFromPythonModule "pkg.repo";
      LoadableTargetsFromPythonPackage "pkg.gone"],
     Raise (External "no such package")).
Proof.
  refine (first_failing_entry_stops_the_document (site_without "pkg.gone") None
            [bare_entry (PythonModule (ModuleStr "pkg.repo"))]
            [bare_entry (PythonFile (FileStr "repo.py"))]
            (bare_entry (PythonPackage (PackageStr "pkg.gone")))
            [create_out_of_process_location
               [("prod", from_module "pkg.repo" "define_repo")] "prod"
               (Some CLI)]
            "/ws/dev.yaml" (External "no such package") eq_refl _ eq_refl).
  repeat constructor.
Defined.

(** X16.  Every document is read before any is resolved: when one of
    the paths does not read, loading raises the error of the first such
    path and no entry of any document has been resolved, the readable
    ones before it included. *)
Theorem unreadable_document_stops_before_resolution
    (env : Collaborators) (before after : list string) (bad : string)
    (configs : list workspace_config) (e : error) :
  Forall2 (fun yaml_path config => c_load_yaml_from_path env yaml_path = Ok config)
          before configs ->
  c_load_yaml_from_path env bad = Raise e ->
  load_workspace_from_yaml_paths env (before ++ bad :: after) = ([], Raise e).
Proof.
  intros Hbefore Hbad. unfold load_workspace_from_yaml_paths.
  rewrite (comprehension_stops
             (fun yaml_path => lift (c_load_yaml_from_path env yaml_path))
             before after bad configs e).
  - cbn [bind]. f_equal. rewrite trace_lift, app_nil_r.
    clear. induction before as [|p before IH]; [reflexivity|].
    cbn [map concat]. now rewrite trace_lift.
  - induction Hbefore; constructor; [now rewrite outcome_lift|assumption].
  - now rewrite outcome_lift.
Qed.

Lemma unreadable_document_stops_before_resolution_witness :
  load_workspace_from_yaml_paths (site_without "/ws/gone.yaml")
    (["/ws/first.yaml"] ++ "/ws/gone.yaml" :: ["/ws/second.yaml"])
  = ([], Raise (External "no such file")).
Proof.
  refine (unreadable_document_stops_before_resolution
            (site_without "/ws/gone.yaml") ["/ws/first.yaml"]
            ["/ws/second.yaml"] "/ws/gone.yaml" [first_document]
            (External "no such file") _ eq_refl).
  repeat constructor.
Defined.

(** ** Any number of documents *)

Lemma last_handle_names (name : string) (workspaces : list Workspace.t)
    (earlier : option RepositoryLocationHandle) :
  last_handle name workspaces earlier <> None
  <-> earlier <> None
      \/ exists w, In w workspaces
                   /\ In name (Workspace.repository_location_names w).
Proof.
  unfold last_handle, Workspace.repository_location_names.
  revert earlier. induction workspaces as [|w ws IH]; intros earlier;
    cbn [fold_left].
  - split; [now left|]. now intros [H|(w & [] & _)].
  - rewrite IH.
    destruct (Py.get (Workspace.location_handle_dict w) name) as [h|] eqn:E.
    + split; [|now left]. intros _. right. exists w.
      split; [now left|]. exact (get_Some_key _ _ _ E).
    + split.
      * intros [H|(w' & Hin & Hname)]; [now left|].
        right. exists w'. split; [now right|assumption].
      * intros [H|(w' & [<-|Hin] & Hname)]; [now left| |].
        -- destruct (key_get _ _ Hname) as [h Hh]. congruence.
        -- right. now exists w'.
Qed.

Lemma documents_read (env : Collaborators) (docs : list loaded_document) :
  Forall (loads env) docs ->
  Forall2 (fun yaml_path config =>
             outcome (lift (c_load_yaml_from_path env yaml_path)) = Ok config)
          (map doc_path docs) (map doc_config docs).
Proof.
  induction 1 as [|d docs [Hread _] _ IH]; cbn [map]; constructor;
    [now rewrite outcome_lift|assumption].
Qed.

Lemma documents_resolve (env : Collaborators) (docs : list loaded_document) :
  Forall (loads env) docs ->
  Forall2 (fun document workspace =>
             outcome (let '(workspace_config, yaml_path) := document in
                      load_workspace_from_config env workspace_config yaml_path)
             = Ok workspace)
          (combine (map doc_config docs) (map doc_path docs))
          (map doc_workspace docs).
Proof.
  induction 1 as [|d docs [_ Hresolved] _ IH]; cbn [map combine]; constructor;
    assumption.
Qed.

(** X17.  Any number of documents that read and resolve merge into one
    workspace: loading succeeds, a location name is in the merged
    workspace exactly when it is in the workspace of one of the
    documents, and under it is the handle of the last document that has
    the name. *)
Theorem documents_merge_last_wins
    (env : Collaborators) (docs : list loaded_document) :
  Forall (loads env) docs ->
  exists merged,
    outcome (load_workspace_from_yaml_paths env (map doc_path docs)) = Ok merged
    /\ (forall name,
          Py.get (Workspace.location_handle_dict merged) name
          = last_handle name (map doc_workspace docs) None)
    /\ (forall name,
          In name (Workspace.repository_location_names merged)
          <-> exists d,
                In d docs
                /\ In name (Workspace.repository_location_names
                              (doc_workspace d))).
Proof.
  intros Hdocs.
  destruct (merge_last_workspace_wins (map doc_workspace docs))
    as (merged & Hmerge & Hkeyed & Hget).
  { apply Forall_map.
    eapply Forall_impl; [|exact Hdocs].
    intros d [_ Hresolved]. exact (loaded_workspace_keyed _ _ _ _ Hresolved). }
  exists (Workspace.make merged). split; [|split].
  - unfold load_workspace_from_yaml_paths.
    rewrite outcome_bind, (comprehension_outcome _ _ _ (documents_read env docs Hdocs)).
    rewrite outcome_bind,
      (comprehension_outcome _ _ _ (documents_resolve env docs Hdocs)).
    rewrite outcome_bind, Hmerge. cbn [outcome snd ret].
    now rewrite create_of_values.
  - exact Hget.
  - intros name. unfold Workspace.repository_location_names at 1.
    cbn [Workspace.location_handle_dict].
    assert (Hin : In name (Py.keys merged) <-> Py.get merged name <> None).
    { split.
      - intros Hk. destruct (key_get _ _ Hk) as [h Hh]. congruence.
      - destruct (Py.get merged name) eqn:E; [|congruence].
        intros _. exact (get_Some_key _ _ _ E). }
    rewrite Hin, Hget, last_handle_names. split.
    + intros [H|(w & Hw & Hname)]; [congruence|].
      apply in_map_iff in Hw. destruct Hw as (d & <- & Hd). now exists d.
    + intros (d & Hd & Hname). right. exists (doc_workspace d).
      split; [now apply in_map|assumption].
Qed.

Lemma documents_merge_last_wins_witness :
  exists merged,
    outcome (load_workspace_from_yaml_paths site
               ["/ws/first.yaml"; "/ws/second.yaml"; "/ws/third.yaml"])
    = Ok merged
    /\ Py.get (Workspace.location_handle_dict merged) "A"
       = Some (create_grpc_server_location (Some 4000%Z) None "localhost" "A")
    /\ Py.get (Workspace.location_handle_dict merged) "C" = None.
Proof.
  destruct (documents_merge_last_wins site
              [ {| doc_path := "/ws/first.yaml";
                   doc_config := first_document;
                   doc_workspace :=
                     Workspace.create
                       [create_grpc_server_location (Some 4000%Z) None
                          "localhost" "A";
                        create_grpc_server_location (Some 4001%Z) None
                          "localhost" "B"] |};
                {| doc_path := "/ws/second.yaml";
                   doc_config := second_document;
                   doc_workspace :=
                     Workspace.create
                       [create_grpc_server_location (Some 5000%Z) None
                          "localhost" "A"] |};
                {| doc_path := "/ws/third.yaml";
                   doc_config := first_document;
                   doc_workspace :=
                     Workspace.create
                       [create_grpc_server_location (Some 4000%Z) None
                          "localhost" "A";
                        create_grpc_server_location (Some 4001%Z) None
                          "localhost" "B"] |} ])
    as (merged & Hloaded & Hget & _).
  - repeat (constructor; [split; reflexivity|]). constructor.
  - exists merged. split; [exact Hloaded|].
    split; [exact (Hget "A") | exact (Hget "C")].
Defined.

Lemma comprehension_all {A B} (f : A -> M B) (xs : list A) (ys : list B) :
  Forall2 (fun x y => outcome (f x) = Ok y) xs ys ->
  comprehension f xs = (concat (map (fun x => trace (f x)) xs), Ok ys).
Proof.
  induction 1 as [|x y xs ys Hx _ IH]; cbn [comprehension map concat];
    [reflexivity|].
  rewrite IH. destruct (f x) as [t r]. cbn in Hx |- *. subst r.
  now rewrite app_nil_r.
Qed.

(** X18.  A document in the workspace format whose entries all resolve:
    the entries are resolved one after the other in the order of
    load_from, so the calls are those of the first entry, then those of
    the second, and so on, and the workspace is made of the handles in
    that order. *)
Theorem document_resolves_entries_in_order
    (env : Collaborators) (flags : option (list string))
    (entries : list location_config)
    (handles : list RepositoryLocationHandle) (yaml_path : string) :
  let resolve entry :=
    _location_handle_from_location_config env entry yaml_path
      (opt_ins_of flags) in
  c_ensure_workspace_config env (workspace_document flags entries) yaml_path
  = Ok tt ->
  Forall2 (fun entry h => outcome (resolve entry) = Ok h) entries handles ->
  load_workspace_from_config env (workspace_document flags entries) yaml_path
  = (concat (map (fun entry => trace (resolve entry)) entries),
     Ok (Workspace.create handles)).
Proof.
  intros resolve Hensure Hentries.
  unfold load_workspace_from_config. rewrite Hensure, bind_lift_Ok.
  unfold workspace_document. cbn [repository load_from opt_in].
  change (comprehension _ entries) with (comprehension resolve entries).
  rewrite (comprehension_all resolve entries handles Hentries).
  cbn [bind ret]. now rewrite app_nil_r.
Qed.

Lemma document_resolves_entries_in_order_witness :
  load_workspace_from_config site
    (workspace_document (Some ["grpc"])
       [python_environment_entry "/venv/bin/python"
          (PythonModule (ModuleStr "pkg.repo"));
        named_grpc_server "A" 4000;
        bare_entry (PythonFile (FileStr "repo.py"))])
    "/ws/dev.yaml"
  = ([SyncListRepositoriesEphemeralGrpc
        (ListRepositoriesArgs.make "/venv/bin/python" None (Some "pkg.repo")
           None);
      LoadableTargetsFromPythonFile "/ws/repo.py" None],
     Ok (Workspace.create
           [ {| location_name := "define_repo";
                strategy := PythonEnvironment;
                payload := EnvRepositories "/venv/bin/python"
                  [("define_repo", from_module "pkg.repo" "define_repo")] |};
             create_grpc_server_location (Some 4000%Z) None "localhost" "A";
             create_out_of_process_location
               [("prod", from_python_file "/ws/repo.py" "define_repo" None)]
               "prod" (Some GRPC) ])).
Proof.
  refine (document_resolves_entries_in_order site (Some ["grpc"])
            [python_environment_entry "/venv/bin/python"
               (PythonModule (ModuleStr "pkg.repo"));
             named_grpc_server "A" 4000;
             bare_entry (PythonFile (FileStr "repo.py"))]
            _ "/ws/dev.yaml" eq_refl _).
  repeat constructor.
Defined.

(** X19.  In the handle that a python_environment entry resolves to,
    whatever the kind of its target and with or without an attribute,
    every pointer is the pointer into the target at the attribute it is
    keyed by. *)
Theorem environment_pointers_follow_their_keys
    (env : Collaborators) (exe : string) (t : Target) (yaml_path : string)
    (opt_ins : list string) (h : RepositoryLocationHandle) :
  is_target_config (target_dict t) = true ->
  outcome (_location_handle_from_location_config env
             (python_environment_entry exe t) yaml_path opt_ins) = Ok h ->
  forall k pointer,
    In (k, pointer) (repository_code_pointer_dict h) ->
    pointer = target_pointer t yaml_path k.
Proof.
  intros Htarget.
  destruct (Py.nonempty (target_attribute t)) as [a|] eqn:Hattr.
  - rewrite (environment_entry_speculates env exe t yaml_path opt_ins a Hattr).
    cbn [outcome snd]. unfold create_python_env_location.
    destruct (assign_location_name _ _); [|discriminate].
    intros [= <-] k pointer. cbn [repository_code_pointer_dict payload].
    intros [[= <- <-]|[]]. reflexivity.
  - rewrite (environment_entry_discovers env exe t yaml_path opt_ins Htarget
               Hattr).
    cbn [outcome snd].
    destruct (remote_answer _ _ _) as [response|]; [|discriminate].
    unfold create_python_env_location.
    destruct (assign_location_name _ _); [|discriminate].
    intros [= <-] k pointer. cbn [repository_code_pointer_dict payload].
    apply entries_by_attribute.
Qed.

Lemma environment_pointers_follow_their_keys_witness :
  exists h,
    outcome (_location_handle_from_location_config site
               (python_environment_entry "/venv/bin/python"
                  (PythonPackage (PackageDict "pkg" None (Some "env"))))
               "/ws/dev.yaml" []) = Ok h
    /\ forall k pointer,
         In (k, pointer) (repository_code_pointer_dict h) ->
         pointer = from_python_package "pkg" k.
Proof.
  eexists. split; [reflexivity|].
  exact (environment_pointers_follow_their_keys site "/venv/bin/python"
           (PythonPackage (PackageDict "pkg" None (Some "env")))
           "/ws/dev.yaml" [] _ eq_refl eq_refl).
Defined.
